(** * Script2Screen: the production state machine of [App.tsx] and the
      request construction and polling loop of [services/geminiService.ts].

    The React component keeps its data in [useState] hooks; one record,
    [Model], holds the value of every hook, each [setX] call is a function
    [Model -> Model], and a handler is the composition of its [setX] calls in
    source order.  The remote model service and the browser are not part of
    the program: their answers are arguments of the handlers. *)

From Stdlib Require Import QArith Ascii String.
From stdpp Require Import base option list strings gmap.

Local Open Scope string_scope.
Local Open Scope list_scope.

(** [m |> f |> g]: apply the state updates [f], then [g], as successive
    statements of a handler do. *)
Notation "m |> f" := (f m) (at level 45, left associativity, only parsing).

(** ** JavaScript values and built-ins used by the sources *)
Module JS.

(** A JavaScript number.  Finite doubles are represented by the rational
    they denote (rounding is not modelled); [NaN] and the two infinities
    are kept apart, as [isNaN] tells them apart. *)
Inductive number : Type :=
| NaN
| Infinity (negative : bool)
| Finite (q : Q).

Definition zero : number := Finite 0.

(** [isNaN(x)] on a number. *)
Definition isNaN (x : number) : bool :=
  match x with NaN => true | _ => false end.

(** Truthiness of a [string | null | undefined]: [null], [undefined] and
    the empty string are falsy. *)
Definition truthy (o : option string) : bool :=
  match o with
  | Some s => negb (String.eqb s "")
  | None => false
  end.

(** [a || b] where [a : string | undefined] and [b] is a string literal. *)
Definition or_else (a : option string) (b : string) : string :=
  match a with
  | Some s => if String.eqb s "" then b else s
  | None => b
  end.

(** [haystack.includes(needle)]. *)
Fixpoint includes (needle haystack : string) : bool :=
  if String.prefix needle haystack then true
  else match haystack with
       | EmptyString => false
       | String _ rest => includes needle rest
       end.

(** [s.split(sep)] for a one-character separator. *)
Fixpoint split (sep : ascii) (s : string) : list string :=
  match s with
  | EmptyString => [EmptyString]
  | String c rest =>
      if Ascii.eqb c sep then EmptyString :: split sep rest
      else match split sep rest with
           | piece :: pieces => String c piece :: pieces
           | [] => [String c EmptyString]
           end
  end.

(** *** A reference model of the built-in [parseFloat]

    After leading white space, the longest prefix that is a decimal
    literal (sign, [Infinity], digits with an optional fraction and
    exponent) gives the value; [NaN] when there is none.  The value is the
    exact rational: rounding to a double and overflow are not modelled. *)

Definition is_space (c : ascii) : bool :=
  let n := N_of_ascii c in
  ((9 <=? n) && (n <=? 13) || (n =? 32))%N.

Fixpoint trim_start (s : string) : string :=
  match s with
  | String c rest => if is_space c then trim_start rest else s
  | EmptyString => s
  end.

Definition digit (c : ascii) : option Z :=
  let n := Z.of_N (N_of_ascii c) in
  if ((48 <=? n) && (n <=? 57))%Z then Some (n - 48)%Z else None.

(** The leading digits of [s] pushed onto the decimal numeral [acc]: how
    many there are, the resulting numeral, and the rest of [s]. *)
Fixpoint digits (acc : Z) (s : string) : nat * Z * string :=
  match s with
  | String c rest =>
      match digit c with
      | Some d => let '(n, v, rest') := digits (10 * acc + d)%Z rest in (S n, v, rest')
      | None => (O, acc, s)
      end
  | EmptyString => (O, acc, s)
  end.

Definition sign (s : string) : bool * string :=
  match s with
  | String "-"%char rest => (true, rest)
  | String "+"%char rest => (false, rest)
  | _ => (false, s)
  end.

(** The value of an exponent part at the head of [s], [0] when [s] does
    not start with one. *)
Definition exponent (s : string) : Z :=
  match s with
  | String c rest =>
      if Ascii.eqb c "e" || Ascii.eqb c "E" then
        let '(neg, rest) := sign rest in
        let '(n, v, _) := digits 0 rest in
        if neg then (- v)%Z else v
      else 0%Z
  | EmptyString => 0%Z
  end.

Definition scale (neg : bool) (mantissa e : Z) : number :=
  let q := if (0 <=? e)%Z then Qmake (mantissa * 10 ^ e) 1
           else Qmake mantissa (Z.to_pos (10 ^ (- e))) in
  Finite (if neg then Qopp q else q).

Definition parseFloat (s : string) : number :=
  let '(neg, s) := sign (trim_start s) in
  if String.prefix "Infinity" s then Infinity neg
  else
    let '(n1, v1, s1) := digits 0 s in
    let '(n2, v2, s2) :=
      match s1 with
      | String "."%char rest => digits v1 rest
      | _ => (O, v1, s1)
      end in
    if (n1 + n2 =? 0)%nat then NaN
    else scale neg v2 (exponent s2 - Z.of_nat n2).

(** The outcome of evaluating code that may throw. *)
Inductive completion (A : Type) : Type :=
| Normal (a : A)
| Throw (what : string).
Arguments Normal {A} a.
Arguments Throw {A} what.

#[global] Instance completion_ret : MRet completion := fun A a => Normal a.
#[global] Instance completion_bind : MBind completion := fun A B k c =>
  match c with
  | Normal a => k a
  | Throw w => Throw w
  end.
#[global] Instance completion_fmap : FMap completion := fun A B f c =>
  match c with
  | Normal a => Normal (f a)
  | Throw w => Throw w
  end.

(** Reading a property of [o]: a [TypeError] when [o] is [null] or
    [undefined]. *)
Definition deref {A} (o : option A) : completion A :=
  match o with
  | Some a => Normal a
  | None => Throw "TypeError"
  end.

(** A settled promise. *)
Record Error : Type := { message : option string }.

Inductive settled (A : Type) : Type :=
| Fulfilled (a : A)
| Rejected (e : Error).
Arguments Fulfilled {A} a.
Arguments Rejected {A} e.

(** Arrays: an element is [None] where the array has a hole or holds
    [undefined]. *)

(** [a[i]]: [undefined] past the end. *)
Definition array_get {A} (a : list (option A)) (i : nat) : option A :=
  mjoin (a !! i).

(** [a[i] = v]: in range the element is replaced; past the end the array
    grows, the skipped positions being holes. *)
Definition array_set {A} (a : list (option A)) (i : nat) (v : A) : list (option A) :=
  if decide (i < length a)%nat then <[i := Some v]> a
  else a ++ replicate (i - length a) None ++ [Some v].

(** [arr.join(sep)] on an array of strings. *)
Fixpoint join (sep : string) (arr : list string) : string :=
  match arr with
  | [] => ""
  | [x] => x
  | x :: rest => x ++ sep ++ join sep rest
  end.

(** [a <= b] on numbers: false as soon as one side is [NaN]. *)
Definition leb (a b : number) : bool :=
  match a, b with
  | NaN, _ | _, NaN => false
  | Infinity true, _ => true
  | _, Infinity false => true
  | Infinity false, _ => false
  | _, Infinity true => false
  | Finite p, Finite q => Qle_bool p q
  end.

(** The number that a field converts to in a comparison: [undefined]
    converts to [NaN]. *)
Definition to_number (o : option number) : number := default NaN o.

End JS.

(** ** [types.ts] *)
Module Types.

Inductive AppState : Type :=
| KEY_SELECTION | UPLOAD | CONFIGURE | ANALYZING | STORYBOARD | GENERATING | RESULT.

Inductive Genre : Type :=
| Sci_fi | Comedy | Drama | Horror | Action | Romance.

Inductive Mood : Type :=
| Uplifting | Suspenseful | Heartwarming | Dark | Epic | Noir.

Inductive Archetype : Type :=
| Reluctant_Hero | Wise_Mentor | Cunning_Villain | Comic_Relief | Femme_Fatale | The_Outcast.

Inductive CameraMovement : Type :=
| Static | Cinematic_Push_In | Slow_Pan_Left | Slow_Pan_Right
| Handheld_Shake | Drone_Flyover | Zoom_Out.

#[export] Instance AppState_eq_dec : EqDecision AppState.
Proof. solve_decision. Defined.
#[export] Instance Archetype_eq_dec : EqDecision Archetype.
Proof. solve_decision. Defined.

(** An object read from the subtitle array.  A field is [None] when the
    object lacks it, which happens when [updateSubtitleTime] or
    [updateSubtitleText] writes past the end of the array. *)
Record Subtitle : Type := {
  startTime : option JS.number;
  endTime : option JS.number;
  text : option string
}.

Record GenerationConfig : Type := {
  genre : Genre;
  mood : Mood;
  archetypes : list Archetype;
  camera : CameraMovement;
  includeSubtitles : bool
}.

(** [MovieScene].  Its [genre] and [mood] are free strings; they are
    named [sceneGenre] and [sceneMood] here because projections share one
    name space.  An array element is [None] where the JavaScript array has
    a hole. *)
Record MovieScene : Type := {
  title : string;
  description : string;
  visualPrompt : string;
  sceneGenre : string;
  sceneMood : string;
  characters : list string;
  subtitles : option (list (option Subtitle));
  storyboardImage : option string
}.

(** The string that each value of the four string-literal types is. *)
Definition Genre_string (g : Genre) : string :=
  match g with
  | Sci_fi => "Sci-fi" | Comedy => "Comedy" | Drama => "Drama"
  | Horror => "Horror" | Action => "Action" | Romance => "Romance"
  end.

Definition Mood_string (m : Mood) : string :=
  match m with
  | Uplifting => "Uplifting" | Suspenseful => "Suspenseful"
  | Heartwarming => "Heartwarming" | Dark => "Dark" | Epic => "Epic" | Noir => "Noir"
  end.

Definition Archetype_string (a : Archetype) : string :=
  match a with
  | Reluctant_Hero => "Reluctant Hero" | Wise_Mentor => "Wise Mentor"
  | Cunning_Villain => "Cunning Villain" | Comic_Relief => "Comic Relief"
  | Femme_Fatale => "Femme Fatale" | The_Outcast => "The Outcast"
  end.

Definition CameraMovement_string (c : CameraMovement) : string :=
  match c with
  | Static => "Static" | Cinematic_Push_In => "Cinematic Push-In"
  | Slow_Pan_Left => "Slow Pan Left" | Slow_Pan_Right => "Slow Pan Right"
  | Handheld_Shake => "Handheld Shake" | Drone_Flyover => "Drone Flyover"
  | Zoom_Out => "Zoom Out"
  end.

End Types.

(** ** [services/geminiService.ts] *)
Module GeminiService.
Import Types.

(** *** The structured-output schema of [analyzeScript] *)

(** [Type.STRING], [Type.NUMBER], [Type.ARRAY], [Type.OBJECT]. *)
Inductive SchemaType : Type := STRING | NUMBER | ARRAY | OBJECT.

(** A schema object.  [properties] is the JavaScript object used as a map
    from property name to schema, [required] the array of names; a schema
    literal that has no [properties] or [required] key has them empty, and
    [items] is [None] when the key is absent. *)
#[local] Unset Elimination Schemes.
Inductive Schema : Type := MkSchema {
  type : SchemaType;
  properties : gmap string Schema;
  items : option Schema;
  required : list string
}.
#[local] Set Elimination Schemes.

Definition scalar (t : SchemaType) : Schema :=
  {| type := t; properties := ∅; items := None; required := [] |}.

(** [responseSchema.properties.subtitles = v]. *)
Definition set_properties (name : string) (v : Schema) (s : Schema) : Schema :=
  {| type := type s; properties := <[name := v]> (properties s);
     items := items s; required := required s |}.

(** [responseSchema.required.push(name)]. *)
Definition required_push (name : string) (s : Schema) : Schema :=
  {| type := type s; properties := properties s;
     items := items s; required := required s ++ [name] |}.

(** The value of [responseSchema] when [analyzeScript] sends its request
    (lines 27-57). *)
Definition responseSchema (config : GenerationConfig) : Schema :=
  let responseSchema :=
    {| type := OBJECT;
       properties :=
         <["title" := scalar STRING]>
         (<["description" := scalar STRING]>
         (<["visualPrompt" := scalar STRING]>
         (<["genre" := scalar STRING]>
         (<["mood" := scalar STRING]>
         (<["characters" :=
              {| type := ARRAY; properties := ∅;
                 items := Some (scalar STRING); required := [] |}]> ∅)))));
       items := None;
       required := ["title"; "description"; "visualPrompt"; "genre"; "mood"; "characters"] |} in
  if includeSubtitles config then
    responseSchema
    |> set_properties "subtitles"
         {| type := ARRAY; properties := ∅;
            items := Some
              {| type := OBJECT;
                 properties :=
                   <["startTime" := scalar NUMBER]>
                   (<["endTime" := scalar NUMBER]>
                   (<["text" := scalar STRING]> ∅));
                 items := None;
                 required := ["startTime"; "endTime"; "text"] |};
            required := [] |}
    |> required_push "subtitles"
  else responseSchema.

(** *** [generateVideo] *)

(** The job handle returned by the video service.  [done] is the
    truthiness of [operation.done] (an absent flag is falsy); [uri] is
    [operation.response?.generatedVideos?.[0]?.video?.uri], [None] when
    any link of the chain is missing. *)
Record Operation : Type := { done : bool; uri : option string }.

(** What the remote service answers: to [ai.models.generateVideos], and to
    the [n]-th call ([n >= 1]) of [ai.operations.getVideosOperation]. *)
Record VideoService : Type := {
  generateVideos : string -> JS.settled Operation;
  getVideosOperation : nat -> JS.settled Operation
}.

(** What [generateVideo] does that its caller or the outside can see, in
    order. *)
Inductive Effect : Type :=
| OnProgress (msg : string)
| GenerateVideos (prompt : string)
| SetTimeout (ms : N)
| GetVideosOperation.

(** How a run ends: the promise resolves, rejects, or the loop is still
    polling when the iteration budget of the model is used up. *)
Inductive Outcome : Type :=
| Resolves (value : string)
| Rejects (e : JS.Error)
| StillPolling.

Definition progressMessages : list string :=
  [ "Drafting storyboards...";
    "Setting up virtual lighting...";
    "Capturing initial frames...";
    "Refining textures...";
    "Applying cinematic color grade...";
    "Finalizing render..." ].

(** [progressMessages[msgIndex % progressMessages.length]]. *)
Definition progressMessage (msgIndex : nat) : string :=
  default "undefined" (progressMessages !! (msgIndex mod length progressMessages)).

(** The messages passed to [onProgress] in a run, in order. *)
Definition progressOf (trace : list Effect) : list string :=
  omap (fun e => match e with OnProgress msg => Some msg | _ => None end) trace.

(** How many times a run calls [getVideosOperation]. *)
Definition refreshesOf (trace : list Effect) : nat :=
  length (omap (fun e => match e with GetVideosOperation => Some e | _ => None end) trace).

(** What one turn of the loop does, [i] being [msgIndex] when it starts:
    lines 135-138. *)
Definition turn (i : nat) : list Effect :=
  [OnProgress (progressMessage i); SetTimeout 8000%N; GetVideosOperation].

Section WithEnvironment.
(** [process.env.API_KEY]. *)
Variable API_KEY : option string.
Variable service : VideoService.

(** Lines 141-144: the code after the loop. *)
Definition download (operation : Operation) : Outcome :=
  let downloadLink := uri operation in
  if negb (JS.truthy downloadLink)
  then Rejects {| JS.message := Some "Video generation failed" |}
  else Resolves (default "" downloadLink ++ "&key=" ++ default "undefined" API_KEY).

(** Lines 133-139: the [while (!operation.done)] loop, run for at most
    [fuel] iterations. *)
Fixpoint poll (fuel : nat) (operation : Operation) (msgIndex : nat)
  : list Effect * Outcome :=
  if done operation then ([], download operation)
  else match fuel with
       | O => ([], StillPolling)
       | S fuel' =>
           let body := turn msgIndex in
           let msgIndex := S msgIndex in
           match getVideosOperation service msgIndex with
           | JS.Rejected e => (body, Rejects e)
           | JS.Fulfilled operation =>
               let '(rest, outcome) := poll fuel' operation msgIndex in
               (body ++ rest, outcome)
           end
       end.

Definition generateVideo (fuel : nat) (prompt : string) : list Effect * Outcome :=
  let start := [OnProgress "Initializing cinematic engine..."; GenerateVideos prompt] in
  match generateVideos service prompt with
  | JS.Rejected e => (start, Rejects e)
  | JS.Fulfilled operation =>
      let '(rest, outcome) := poll fuel operation 0 in
      (start ++ rest, outcome)
  end.

(** After [k] refreshes the job handle is [operation]; it and the next
    refreshes report not done [n] times in a row, and then [final] is
    reported, which is done. *)
Fixpoint reports (k : nat) (operation : Operation) (n : nat) (final : Operation) : Prop :=
  match n with
  | O => done operation = true /\ final = operation
  | S n' =>
      done operation = false /\
      exists next, getVideosOperation service (S k) = JS.Fulfilled next /\
                   reports (S k) next n' final
  end.

End WithEnvironment.

(** *** [analyzeScript] (lines 5-85) *)

(** The double quote character. *)
Definition dquote : string := String "034"%char EmptyString.

(** The template literal of lines 8-25. *)
Definition prompt (config : GenerationConfig) : string :=
  "
    Analyze this movie script and extract a cinematic scene that fits the following parameters:
    - Target Genre: " ++ Genre_string (genre config) ++ "
    - Target Mood: " ++ Mood_string (mood config) ++ "
    - Camera Movement Style: " ++ CameraMovement_string (camera config) ++ "
    - Required Character Archetypes to feature: "
    ++ JS.join ", " (Archetype_string <$> archetypes config) ++ "

    Your task:
    1. Identify or adapt a scene from the PDF that best matches these parameters.
    2. Provide a compelling movie title.
    3. Write a short cinematic description of the scene's emotional core.
    4. Create a highly detailed visual prompt for an AI video generator. 
       CRITICAL: Start the prompt by describing the camera movement: "
    ++ dquote ++ CameraMovement_string (camera config) ++ dquote ++ ". 
       Include details about lighting (e.g., volumetric, high-contrast), texture, 
       and specific details about the environment and character actions that reflect the "
    ++ Mood_string (mood config) ++ " mood.
    5. List which characters/archetypes are featured.
    "
    ++ (if includeSubtitles config
        then "6. Generate exactly 2-4 lines of cinematic dialogue (subtitles) that match the visual prompt. Each subtitle must have a startTime and endTime (in seconds, between 0 and 6)."
        else "")
    ++ "
  ".

(** The argument of [ai.models.generateContent] in [analyzeScript], its
    nesting flattened: [contents[0].parts[0].inlineData.{data, mimeType}],
    [contents[0].parts[1].text], [config.{responseMimeType, responseSchema}]. *)
Record AnalyzeRequest : Type := {
  req_model : string;
  req_data : string;
  req_mimeType : string;
  req_text : string;
  req_responseMimeType : string;
  req_responseSchema : Schema
}.

(** The part of the answer that [analyzeScript] reads: [response.text]. *)
Record TextResponse : Type := { response_text : option string }.

Definition analyzeRequest (fileBase64 : string) (config : GenerationConfig) : AnalyzeRequest :=
  {| req_model := "gemini-3-flash-preview";
     req_data := fileBase64;
     req_mimeType := "application/pdf";
     req_text := prompt config;
     req_responseMimeType := "application/json";
     req_responseSchema := responseSchema config |}.

Section Analyze.
(** The remote call, and the built-in [JSON.parse] read at the type
    [MovieScene] (the source casts its result without checking it);
    [JSON.parse] throws on text that is not JSON. *)
Variable generateContent : AnalyzeRequest -> JS.settled TextResponse.
Variable JSON_parse : string -> JS.completion MovieScene.

Definition analyzeScript (fileBase64 : string) (config : GenerationConfig)
  : JS.settled MovieScene :=
  match generateContent (analyzeRequest fileBase64 config) with
  | JS.Rejected e => JS.Rejected e
  | JS.Fulfilled response =>
      let text := response_text response in
      if negb (JS.truthy text)
      then JS.Rejected {| JS.message := Some "Failed to analyze script" |}
      else match JSON_parse (default "" text) with
           | JS.Normal scene => JS.Fulfilled scene
           | JS.Throw what => JS.Rejected {| JS.message := Some what |}
           end
  end.
End Analyze.

(** *** [generateStoryboard] (lines 87-107) *)

(** The argument of [generateContent] in [generateStoryboard]: [model] and
    [contents.parts[0].text]. *)
Record ImageRequest : Type := { img_model : string; img_text : string }.

(** The parts of the answer that [generateStoryboard] reads; a field is
    [None] when it is absent.  [parts] is [content?.parts]. *)
Record InlineData : Type := { data : option string }.
Record Part : Type := { inlineData : option InlineData }.
Record Candidate : Type := { parts : option (list Part) }.
Record ImageResponse : Type := { candidates : option (list Candidate) }.

(** [response.candidates?.[0]?.content?.parts || []]. *)
Definition first_parts (response : ImageResponse) : list Part :=
  default [] (cs ← candidates response; candidate ← head cs; parts candidate).

(** The [for] loop of lines 100-104: the data URL of the first part that has
    [inlineData], if any. *)
Fixpoint first_image (ps : list Part) : option string :=
  match ps with
  | [] => None
  | part :: rest =>
      match inlineData part with
      | Some inline =>
          Some ("data:image/png;base64," ++ default "undefined" (data inline))%string
      | None => first_image rest
      end
  end.

Section Storyboard.
Variable generateContent : ImageRequest -> JS.settled ImageResponse.

Definition generateStoryboard (prompt : string) : JS.settled string :=
  match generateContent
          {| img_model := "gemini-2.5-flash-image";
             img_text := prompt ++ " --aspect-ratio 16:9 --style cinematic --high-quality" |} with
  | JS.Rejected e => JS.Rejected e
  | JS.Fulfilled response =>
      match first_image (first_parts response) with
      | Some url => JS.Fulfilled url
      | None => JS.Rejected {| JS.message := Some "Failed to generate storyboard image" |}
      end
  end.
End Storyboard.

End GeminiService.

(** ** [App.tsx] *)
Module App.
Import Types.

(** The value of every [useState] hook of the component (lines 67-86). *)
Record Model : Type := {
  state : AppState;
  error : option string;
  loadingMsg : string;
  sceneInfo : option MovieScene;
  videoUrl : option string;
  videoLoaded : bool;
  currentTime : JS.number;
  showSubtitles : bool;
  pdfBase64 : option string;
  config : GenerationConfig
}.

(** The initial values passed to the hooks. *)
Definition initial : Model :=
  {| state := KEY_SELECTION; error := None; loadingMsg := ""; sceneInfo := None;
     videoUrl := None; videoLoaded := false; currentTime := JS.zero;
     showSubtitles := true; pdfBase64 := None;
     config := {| genre := Sci_fi; mood := Epic; archetypes := [];
                  camera := Cinematic_Push_In; includeSubtitles := true |} |}.

(** *** The hook setters *)

Definition setState (v : AppState) (m : Model) : Model :=
  {| state := v; error := error m; loadingMsg := loadingMsg m; sceneInfo := sceneInfo m;
     videoUrl := videoUrl m; videoLoaded := videoLoaded m; currentTime := currentTime m;
     showSubtitles := showSubtitles m; pdfBase64 := pdfBase64 m; config := config m |}.

Definition setError (v : option string) (m : Model) : Model :=
  {| state := state m; error := v; loadingMsg := loadingMsg m; sceneInfo := sceneInfo m;
     videoUrl := videoUrl m; videoLoaded := videoLoaded m; currentTime := currentTime m;
     showSubtitles := showSubtitles m; pdfBase64 := pdfBase64 m; config := config m |}.

Definition setLoadingMsg (v : string) (m : Model) : Model :=
  {| state := state m; error := error m; loadingMsg := v; sceneInfo := sceneInfo m;
     videoUrl := videoUrl m; videoLoaded := videoLoaded m; currentTime := currentTime m;
     showSubtitles := showSubtitles m; pdfBase64 := pdfBase64 m; config := config m |}.

(** [setSceneInfo(prev => f(prev))]; [setSceneInfo(v)] is the constant
    update. *)
Definition updateSceneInfo (f : option MovieScene -> option MovieScene) (m : Model) : Model :=
  {| state := state m; error := error m; loadingMsg := loadingMsg m;
     sceneInfo := f (sceneInfo m);
     videoUrl := videoUrl m; videoLoaded := videoLoaded m; currentTime := currentTime m;
     showSubtitles := showSubtitles m; pdfBase64 := pdfBase64 m; config := config m |}.

Definition setSceneInfo (v : option MovieScene) : Model -> Model :=
  updateSceneInfo (fun _ => v).

Definition setVideoUrl (v : option string) (m : Model) : Model :=
  {| state := state m; error := error m; loadingMsg := loadingMsg m; sceneInfo := sceneInfo m;
     videoUrl := v; videoLoaded := videoLoaded m; currentTime := currentTime m;
     showSubtitles := showSubtitles m; pdfBase64 := pdfBase64 m; config := config m |}.

Definition setVideoLoaded (v : bool) (m : Model) : Model :=
  {| state := state m; error := error m; loadingMsg := loadingMsg m; sceneInfo := sceneInfo m;
     videoUrl := videoUrl m; videoLoaded := v; currentTime := currentTime m;
     showSubtitles := showSubtitles m; pdfBase64 := pdfBase64 m; config := config m |}.

Definition setCurrentTime (v : JS.number) (m : Model) : Model :=
  {| state := state m; error := error m; loadingMsg := loadingMsg m; sceneInfo := sceneInfo m;
     videoUrl := videoUrl m; videoLoaded := videoLoaded m; currentTime := v;
     showSubtitles := showSubtitles m; pdfBase64 := pdfBase64 m; config := config m |}.

Definition setShowSubtitles (v : bool) (m : Model) : Model :=
  {| state := state m; error := error m; loadingMsg := loadingMsg m; sceneInfo := sceneInfo m;
     videoUrl := videoUrl m; videoLoaded := videoLoaded m; currentTime := currentTime m;
     showSubtitles := v; pdfBase64 := pdfBase64 m; config := config m |}.

Definition setPdfBase64 (v : option string) (m : Model) : Model :=
  {| state := state m; error := error m; loadingMsg := loadingMsg m; sceneInfo := sceneInfo m;
     videoUrl := videoUrl m; videoLoaded := videoLoaded m; currentTime := currentTime m;
     showSubtitles := showSubtitles m; pdfBase64 := v; config := config m |}.

(** [setConfig(prev => f(prev))]. *)
Definition setConfig (f : GenerationConfig -> GenerationConfig) (m : Model) : Model :=
  {| state := state m; error := error m; loadingMsg := loadingMsg m; sceneInfo := sceneInfo m;
     videoUrl := videoUrl m; videoLoaded := videoLoaded m; currentTime := currentTime m;
     showSubtitles := showSubtitles m; pdfBase64 := pdfBase64 m; config := f (config m) |}.

(** [{...prev, genre: val}] and its siblings. *)
Definition with_genre (val : Genre) (prev : GenerationConfig) : GenerationConfig :=
  {| genre := val; mood := mood prev; archetypes := archetypes prev;
     camera := camera prev; includeSubtitles := includeSubtitles prev |}.
Definition with_mood (val : Mood) (prev : GenerationConfig) : GenerationConfig :=
  {| genre := genre prev; mood := val; archetypes := archetypes prev;
     camera := camera prev; includeSubtitles := includeSubtitles prev |}.
Definition with_camera (val : CameraMovement) (prev : GenerationConfig) : GenerationConfig :=
  {| genre := genre prev; mood := mood prev; archetypes := archetypes prev;
     camera := val; includeSubtitles := includeSubtitles prev |}.
Definition with_archetypes (val : list Archetype) (prev : GenerationConfig) : GenerationConfig :=
  {| genre := genre prev; mood := mood prev; archetypes := val;
     camera := camera prev; includeSubtitles := includeSubtitles prev |}.
Definition with_includeSubtitles (val : bool) (prev : GenerationConfig) : GenerationConfig :=
  {| genre := genre prev; mood := mood prev; archetypes := archetypes prev;
     camera := camera prev; includeSubtitles := val |}.

(** [{...scene, storyboardImage: v}] and [{...scene, subtitles: v}]. *)
Definition with_storyboardImage (v : string) (scene : MovieScene) : MovieScene :=
  {| title := title scene; description := description scene;
     visualPrompt := visualPrompt scene; sceneGenre := sceneGenre scene;
     sceneMood := sceneMood scene; characters := characters scene;
     subtitles := subtitles scene; storyboardImage := Some v |}.
Definition with_subtitles (v : list (option Subtitle)) (scene : MovieScene) : MovieScene :=
  {| title := title scene; description := description scene;
     visualPrompt := visualPrompt scene; sceneGenre := sceneGenre scene;
     sceneMood := sceneMood scene; characters := characters scene;
     subtitles := Some v; storyboardImage := storyboardImage scene |}.

(** *** Credential handlers (lines 91-114) *)

(** The effect run on mount; [hasKey] is how
    [window.aistudio.hasSelectedApiKey()] settles. *)
Definition checkKey (hasKey : JS.settled bool) (m : Model) : Model :=
  match hasKey with
  | JS.Fulfilled true => m |> setState UPLOAD
  | JS.Fulfilled false => m
  | JS.Rejected _ => m |> setState KEY_SELECTION
  end.

Definition handleOpenKey (opened : JS.settled unit) (m : Model) : Model :=
  match opened with
  | JS.Fulfilled _ => m |> setState UPLOAD
  | JS.Rejected _ => m |> setError (Some "Failed to open key selection dialog.")
  end.

(** *** [handleFileUpload] (lines 116-151) *)

(** How [reader.readAsDataURL(file)] ends: [onload] with [reader.result],
    or [onerror]. *)
Inductive ReadOutcome : Type :=
| Onload (result : option string)
| Onerror.

(** The selected file: its MIME type and what reading it gives. *)
Record File : Type := { type : string; readAsDataURL : ReadOutcome }.

(** Up to the [return] of the MIME check, or to [reader.readAsDataURL]. *)
Definition handleFileUpload_sync (files : option File) (m : Model) : Model :=
  match files with
  | None => m
  | Some file =>
      if negb (String.eqb (type file) "application/pdf")
      then m |> setError (Some "Please upload a valid PDF script.")
      else m |> setLoadingMsg "Reading Script..."
  end.

(** The [try] block of [reader.onload]. *)
Definition onload_try (result : option string) (m : Model) : JS.completion Model :=
  result ← JS.deref result;
  let base64 := JS.split "," result !! 1%nat in
  mret (m |> setPdfBase64 base64 |> setState CONFIGURE |> setError None).

Definition reader_onload (result : option string) (m : Model) : Model :=
  let m' :=
    match onload_try result m with
    | JS.Normal m' => m'
    | JS.Throw _ => m |> setError (Some "Error processing script. Please try another file.")
    end in
  m' |> setLoadingMsg "".

Definition reader_onerror (m : Model) : Model :=
  m |> setError (Some "Failed to read the file. Please try again.") |> setLoadingMsg "".

(** The handler followed by the reader callback it installs. *)
Definition handleFileUpload (files : option File) (m : Model) : Model :=
  let m' := handleFileUpload_sync files m in
  match files with
  | None => m'
  | Some file =>
      if negb (String.eqb (type file) "application/pdf") then m'
      else match readAsDataURL file with
           | Onload result => m' |> reader_onload result
           | Onerror => m' |> reader_onerror
           end
  end.

(** *** [startAnalysis] (lines 154-181) *)

(** Up to the first [await]. *)
Definition startAnalysis_sync (m : Model) : Model :=
  if negb (JS.truthy (pdfBase64 m)) then m
  else m |> setLoadingMsg "Analyzing Narrative Beats..."
         |> setState ANALYZING
         |> setError None.

(** The [catch] block. *)
Definition startAnalysis_catch (apiErr : JS.Error) (m : Model) : Model :=
  if from_option (JS.includes "Requested entity was not found") false (JS.message apiErr)
  then m |> setState KEY_SELECTION
         |> setError (Some "Your API key session expired. Please re-select your project.")
  else m |> setError (Some (JS.or_else (JS.message apiErr)
                              "A production error occurred. Please try again."))
         |> setState CONFIGURE.

(** Between the two [await]s: [analyzeScript] has resolved. *)
Definition startAnalysis_analyzed (analysis : MovieScene) (m : Model) : Model :=
  m |> setSceneInfo (Some analysis)
    |> setLoadingMsg "Sketching Storyboard...".

(** After the second [await]: [generateStoryboard] has resolved. *)
Definition startAnalysis_sketched (analysis : MovieScene) (storyboard : string)
    (m : Model) : Model :=
  m |> updateSceneInfo (fun prev =>
         match prev with
         | Some prev => Some (prev |> with_storyboardImage storyboard)
         | None => Some analysis
         end)
    |> setState STORYBOARD.

Section Analysis.
(** The two service calls, as functions from their arguments to the way
    the returned promise settles. *)
Variable analyzeScript : string -> GenerationConfig -> JS.settled MovieScene.
Variable generateStoryboard : string -> JS.settled string.

(** The whole handler, run to its end. *)
Definition startAnalysis (m : Model) : Model :=
  if negb (JS.truthy (pdfBase64 m)) then m
  else
    let m' := startAnalysis_sync m in
    match analyzeScript (default "" (pdfBase64 m)) (config m) with
    | JS.Rejected apiErr => m' |> startAnalysis_catch apiErr
    | JS.Fulfilled analysis =>
        let m' := m' |> startAnalysis_analyzed analysis in
        match generateStoryboard (visualPrompt analysis) with
        | JS.Rejected apiErr => m' |> startAnalysis_catch apiErr
        | JS.Fulfilled storyboard => m' |> startAnalysis_sketched analysis storyboard
        end
    end.
End Analysis.

(** *** [startVideoGeneration] (lines 184-201) *)

(** Up to the [await]. *)
Definition startVideoGeneration_sync (m : Model) : Model :=
  match sceneInfo m with
  | None => m
  | Some _ =>
      m |> setLoadingMsg "Rendering Cinematic Vision..."
        |> setState GENERATING
        |> setVideoLoaded false
  end.

(** After the [await]: [generateVideo] has resolved. *)
Definition startVideoGeneration_rendered (movieUrl : string) (m : Model) : Model :=
  m |> setVideoUrl (Some movieUrl) |> setState RESULT.

(** The [catch] block. *)
Definition startVideoGeneration_catch (apiErr : JS.Error) (m : Model) : Model :=
  m |> setError (Some (JS.or_else (JS.message apiErr) "Video generation failed."))
    |> setState STORYBOARD.

Section Video.
(** [generateVideo] of the service module, as a function from the prompt
    to its run.  The handler passes [(msg) => setLoadingMsg(msg)] as
    [onProgress], so every [OnProgress] of the run sets the loading
    message. *)
Variable generateVideo : string -> list GeminiService.Effect * GeminiService.Outcome.

(** The whole handler, run to its end (or for as long as the service
    run was followed). *)
Definition startVideoGeneration (m : Model) : Model :=
  match sceneInfo m with
  | None => m
  | Some sceneInfo =>
      let m' := startVideoGeneration_sync m in
      let '(trace, outcome) := generateVideo (visualPrompt sceneInfo) in
      let m' := foldl (fun m msg => m |> setLoadingMsg msg) m'
                      (GeminiService.progressOf trace) in
      match outcome with
      | GeminiService.Resolves movieUrl => m' |> startVideoGeneration_rendered movieUrl
      | GeminiService.Rejects apiErr => m' |> startVideoGeneration_catch apiErr
      | GeminiService.StillPolling => m'
      end
  end.
End Video.

(** *** Store operations (lines 203-246) *)

(** The value that [toggleArchetype] gives to [archetypes]. *)
Definition toggled (arch : Archetype) (archetypes : list Archetype) : list Archetype :=
  if bool_decide (arch ∈ archetypes)
  then filter (fun a => a ≠ arch) archetypes
  else archetypes ++ [arch].

Definition toggleArchetype (arch : Archetype) (m : Model) : Model :=
  m |> setConfig (fun prev => prev |> with_archetypes (toggled arch (archetypes prev))).

Definition reset (m : Model) : Model :=
  m |> setState UPLOAD
    |> setVideoUrl None
    |> setSceneInfo None
    |> setPdfBase64 None
    |> setVideoLoaded false
    |> setError None.

(** The callback that [handleVideoCanPlay] schedules 200 ms later. *)
Definition handleVideoCanPlay_timeout (m : Model) : Model :=
  m |> setVideoLoaded true.

(** [current] is [videoRef.current.currentTime], [None] when
    [videoRef.current] is [null]. *)
Definition handleTimeUpdate (current : option JS.number) (m : Model) : Model :=
  match current with
  | Some t => m |> setCurrentTime t
  | None => m
  end.

(** ['startTime' | 'endTime']. *)
Inductive TimeField : Type := StartTime | EndTime.

(** [{ ...sub }]: spreading [undefined] gives an object without fields. *)
Definition spread (sub : option Subtitle) : Subtitle :=
  default {| startTime := None; endTime := None; text := None |} sub.

Definition with_text (newText : string) (sub : Subtitle) : Subtitle :=
  {| startTime := startTime sub; endTime := endTime sub; text := Some newText |}.

(** [{ ...sub, [field]: v }]. *)
Definition with_time (field : TimeField) (v : JS.number) (sub : Subtitle) : Subtitle :=
  match field with
  | StartTime => {| startTime := Some v; endTime := endTime sub; text := text sub |}
  | EndTime => {| startTime := startTime sub; endTime := Some v; text := text sub |}
  end.

(** The field [field] of a subtitle object. *)
Definition time_of (field : TimeField) (sub : Subtitle) : option JS.number :=
  match field with
  | StartTime => startTime sub
  | EndTime => endTime sub
  end.

(** [index] is the position that [subtitles.map((sub, idx) => ...)] passes,
    a natural number. *)
Definition updateSubtitleText (index : nat) (newText : string) (m : Model)
  : JS.completion Model :=
  if negb (bool_decide (is_Some (sceneInfo m))) then mret m
  else
    scene ← JS.deref (sceneInfo m);
    let newSubtitles := default [] (subtitles scene) in
    let newSubtitles :=
      JS.array_set newSubtitles index
        (spread (JS.array_get newSubtitles index) |> with_text newText) in
    mret (m |> setSceneInfo (Some (scene |> with_subtitles newSubtitles))).

(** The value of [field] of the subtitle at [index] in the store. *)
Definition stored_time (index : nat) (field : TimeField) (m : Model) : option JS.number :=
  scene ← sceneInfo m;
  subs ← subtitles scene;
  sub ← JS.array_get subs index;
  time_of field sub.

(** *** The interface (lines 252-563) *)

(** What can happen to the component: the user acts on a control, or
    something a handler waits for comes back. *)
Inductive Event : Type :=
| InitiateStudio
| ScriptInput (files : option File)
| ChangeScript
| SelectGenre (val : Genre)
| SelectMood (val : Mood)
| SelectCamera (val : CameraMovement)
| SelectArchetype (val : Archetype)
| SubtitlesSwitch
| InitializeStoryboard
| AdjustSettings
| GenerateVideo
| SubtitleTimeInput (idx : nat) (field : TimeField) (value : string)
| SubtitleTextInput (idx : nat) (value : string)
| VideoCanPlay
| VideoTimeUpdate (current : option JS.number)
| SubtitlesButton
| EditStoryboard
| RegenerateVideo
| StartNewProject
| KeyChecked (hasKey : JS.settled bool)
| KeyDialogClosed (opened : JS.settled unit)
| ReaderOnload (result : option string)
| ReaderOnerror
| AnalysisResolved (analysis : MovieScene)
| StoryboardResolved (analysis : MovieScene) (storyboard : string)
| AnalysisRejected (apiErr : JS.Error)
| VideoProgress (msg : string)
| VideoResolved (movieUrl : string)
| VideoRejected (apiErr : JS.Error)
| CanPlayTimeout.

(** [sceneInfo.subtitles && sceneInfo.subtitles.length > 0], with the row
    [idx] among those that [subtitles.map] renders. *)
Definition editor_row (idx : nat) (m : Model) : bool :=
  match sceneInfo m with
  | Some scene => bool_decide (idx < length (default [] (subtitles scene)))%nat
  | None => false
  end.

Definition has_subtitles (m : Model) : bool :=
  match sceneInfo m with
  | Some scene => bool_decide (0 < length (default [] (subtitles scene)))%nat
  | None => false
  end.

(** [state === AppState.STORYBOARD && sceneInfo]. *)
Definition storyboard_view (m : Model) : bool :=
  bool_decide (state m = STORYBOARD) && bool_decide (is_Some (sceneInfo m)).

(** [state === AppState.RESULT && videoUrl && sceneInfo]. *)
Definition result_view (m : Model) : bool :=
  bool_decide (state m = RESULT) && JS.truthy (videoUrl m)
  && bool_decide (is_Some (sceneInfo m)).

(** Whether the control of a user event is on the page; what comes back
    from outside needs no control. *)
Definition rendered (e : Event) (m : Model) : bool :=
  match e with
  | InitiateStudio => bool_decide (state m = KEY_SELECTION)
  | ScriptInput _ => bool_decide (state m = UPLOAD)
  | ChangeScript | SelectGenre _ | SelectMood _ | SelectCamera _
  | SelectArchetype _ | SubtitlesSwitch | InitializeStoryboard =>
      bool_decide (state m = CONFIGURE)
  | AdjustSettings | GenerateVideo => storyboard_view m
  | SubtitleTimeInput idx _ _ | SubtitleTextInput idx _ =>
      (storyboard_view m || result_view m) && editor_row idx m
  | VideoCanPlay | VideoTimeUpdate _ | EditStoryboard | RegenerateVideo
  | StartNewProject => result_view m
  | SubtitlesButton => result_view m && has_subtitles m
  | _ => true
  end.

(** The [disabled] attribute: only the INITIALIZE STORYBOARD button has
    one, [disabled={config.archetypes.length === 0}]. *)
Definition disabled (e : Event) (m : Model) : bool :=
  match e with
  | InitializeStoryboard => bool_decide (length (archetypes (config m)) = 0%nat)
  | _ => false
  end.

Section Builtins.
(** The built-in [parseFloat]. *)
Variable parseFloat : string -> JS.number.

Definition updateSubtitleTime (index : nat) (field : TimeField) (value : string)
    (m : Model) : JS.completion Model :=
  if negb (bool_decide (is_Some (sceneInfo m))) then mret m
  else
    scene ← JS.deref (sceneInfo m);
    let newSubtitles := default [] (subtitles scene) in
    let val := parseFloat value in
    let newSubtitles :=
      JS.array_set newSubtitles index
        (spread (JS.array_get newSubtitles index)
           |> with_time field (if JS.isNaN val then JS.zero else val)) in
    mret (m |> setSceneInfo (Some (scene |> with_subtitles newSubtitles))).

(** The code that runs on an event, up to its end or its next [await]. *)
Definition run (e : Event) (m : Model) : JS.completion Model :=
  match e with
  | InitiateStudio => mret m
  | ScriptInput files => mret (m |> handleFileUpload_sync files)
  | ChangeScript | StartNewProject => mret (m |> reset)
  | SelectGenre val => mret (m |> setConfig (with_genre val))
  | SelectMood val => mret (m |> setConfig (with_mood val))
  | SelectCamera val => mret (m |> setConfig (with_camera val))
  | SelectArchetype val => mret (m |> toggleArchetype val)
  | SubtitlesSwitch =>
      mret (m |> setConfig (fun prev =>
                    prev |> with_includeSubtitles (negb (includeSubtitles prev))))
  | InitializeStoryboard => mret (m |> startAnalysis_sync)
  | AdjustSettings => mret (m |> setState CONFIGURE)
  | GenerateVideo | RegenerateVideo => mret (m |> startVideoGeneration_sync)
  | SubtitleTimeInput idx field value => updateSubtitleTime idx field value m
  | SubtitleTextInput idx value => updateSubtitleText idx value m
  | VideoCanPlay => mret m
  | VideoTimeUpdate current => mret (m |> handleTimeUpdate current)
  | SubtitlesButton => mret (m |> setShowSubtitles (negb (showSubtitles m)))
  | EditStoryboard => mret (m |> setState STORYBOARD)
  | KeyChecked hasKey => mret (m |> checkKey hasKey)
  | KeyDialogClosed opened => mret (m |> handleOpenKey opened)
  | ReaderOnload result => mret (m |> reader_onload result)
  | ReaderOnerror => mret (m |> reader_onerror)
  | AnalysisResolved analysis => mret (m |> startAnalysis_analyzed analysis)
  | StoryboardResolved analysis storyboard =>
      mret (m |> startAnalysis_sketched analysis storyboard)
  | AnalysisRejected apiErr => mret (m |> startAnalysis_catch apiErr)
  | VideoProgress msg => mret (m |> setLoadingMsg msg)
  | VideoResolved movieUrl => mret (m |> startVideoGeneration_rendered movieUrl)
  | VideoRejected apiErr => mret (m |> startVideoGeneration_catch apiErr)
  | CanPlayTimeout => mret (m |> handleVideoCanPlay_timeout)
  end.

(** One step of the component: an event whose control is absent or
    disabled runs nothing. *)
Definition step (e : Event) (m : Model) : JS.completion Model :=
  if rendered e m && negb (disabled e m) then run e m else mret m.
End Builtins.

(** *** What the page shows *)

(** The condition under which the loading overlay is rendered (line 559). *)
Definition overlay (m : Model) : bool :=
  bool_decide (state m = ANALYZING) || bool_decide (state m = GENERATING)
  || negb (String.eqb (loadingMsg m) "").

(** Whether the page shows the error: only the KEY_SELECTION and the UPLOAD
    views contain an [{error && ...}] element (lines 283 and 306). *)
Definition error_shown (m : Model) : bool :=
  (bool_decide (state m = KEY_SELECTION) || bool_decide (state m = UPLOAD))
  && JS.truthy (error m).

(** [currentTime >= s.startTime && currentTime <= s.endTime]. *)
Definition active (currentTime : JS.number) (s : Subtitle) : bool :=
  JS.leb (JS.to_number (startTime s)) currentTime
  && JS.leb currentTime (JS.to_number (endTime s)).

(** [subs.find(s => ...)]: the callback reads [s.startTime], which throws
    on a hole. *)
Fixpoint find_active (currentTime : JS.number) (subs : list (option Subtitle))
  : JS.completion (option Subtitle) :=
  match subs with
  | [] => mret None
  | s :: rest =>
      s ← JS.deref s;
      if active currentTime s then mret (Some s)
      else find_active currentTime rest
  end.

(** [currentSubtitle] (lines 248-250), computed at every render. *)
Definition currentSubtitle (m : Model) : JS.completion (option Subtitle) :=
  match sceneInfo m ≫= subtitles with
  | Some subs => find_active (currentTime m) subs
  | None => mret None
  end.

(** The subtitle array of the store, empty when there is no scene or the
    scene has none: [sceneInfo?.subtitles || []]. *)
Definition subtitles_of (m : Model) : list (option Subtitle) :=
  default [] (sceneInfo m ≫= subtitles).

(** The subtitle array has no hole. *)
Definition no_holes (m : Model) : Prop := Forall is_Some (subtitles_of m).

(** The phase changes that a control can make at once. *)
Definition user_edges : list (AppState * AppState) :=
  [ (CONFIGURE, UPLOAD); (CONFIGURE, ANALYZING); (STORYBOARD, CONFIGURE);
    (STORYBOARD, GENERATING); (RESULT, STORYBOARD); (RESULT, GENERATING);
    (RESULT, UPLOAD) ].

(** The events that are the user acting on a control. *)
Definition user_event (e : Event) : bool :=
  match e with
  | KeyChecked _ | KeyDialogClosed _ | ReaderOnload _ | ReaderOnerror
  | AnalysisResolved _ | StoryboardResolved _ _ | AnalysisRejected _
  | VideoProgress _ | VideoResolved _ | VideoRejected _ | CanPlayTimeout => false
  | _ => true
  end.

(** The controls of the configuration form. *)
Definition configures (e : Event) : bool :=
  match e with
  | SelectGenre _ | SelectMood _ | SelectCamera _ | SelectArchetype _
  | SubtitlesSwitch => true
  | _ => false
  end.

(** The stores that the component can be in: the initial one, and the ones
    reached from it by events. *)
Inductive reachable (parseFloat : string -> JS.number) : Model -> Prop :=
| reachable_initial : reachable parseFloat initial
| reachable_step e m m' :
    reachable parseFloat m ->
    step parseFloat e m = JS.Normal m' ->
    reachable parseFloat m'.

End App.

(** ** Sample data *)

Import Types App.

(** A PDF that the reader loads. *)
Definition sample_pdf : File :=
  {| type := "application/pdf";
     readAsDataURL := Onload (Some "data:application/pdf;base64,JVBERi0xLjQK") |}.

(** A store in CONFIGURE with a payload, as the upload of [sample_pdf]
    leaves it. *)
Definition configured : Model :=
  handleFileUpload (Some sample_pdf) (initial |> setState UPLOAD).

Definition expired : JS.Error :=
  {| JS.message := Some "404 NOT_FOUND: Requested entity was not found." |}.

Definition sample_scene : MovieScene :=
  {| title := "Last Light"; description := "A pilot hesitates at the airlock.";
     visualPrompt := "Cinematic Push-In on a dim corridor";
     sceneGenre := "Sci-fi"; sceneMood := "Epic"; characters := ["Reluctant Hero"];
     subtitles := Some [Some {| startTime := Some (JS.Finite 0);
                                endTime := Some (JS.Finite 2);
                                text := Some "We go now." |}];
     storyboardImage := None |}.

(** The store in STORYBOARD after a successful analysis of [sample_pdf]. *)
Definition storyboarded : Model :=
  startAnalysis (fun _ _ => JS.Fulfilled sample_scene)
                (fun _ => JS.Fulfilled "data:image/png;base64,iVBORw0KGgo=")
                (configured |> toggleArchetype Reluctant_Hero).

(** A job whose handle and first two refreshes are not done, and whose
    third refresh is done and carries a link: four statuses in all. *)
Definition job_done_at_4th_status : GeminiService.VideoService :=
  {| GeminiService.generateVideos := fun _ =>
       JS.Fulfilled {| GeminiService.done := false; GeminiService.uri := None |};
     GeminiService.getVideosOperation := fun n =>
       JS.Fulfilled
         (if (n <? 3)%nat
          then {| GeminiService.done := false; GeminiService.uri := None |}
          else {| GeminiService.done := true;
                  GeminiService.uri := Some "https://video.example/v1" |}) |}.

(** A job whose handle and first three refreshes are not done, and whose
    fourth refresh is done. *)
Definition job_done_at_4th_refresh : GeminiService.VideoService :=
  {| GeminiService.generateVideos := fun _ =>
       JS.Fulfilled {| GeminiService.done := false; GeminiService.uri := None |};
     GeminiService.getVideosOperation := fun n =>
       JS.Fulfilled
         (if (n <? 4)%nat
          then {| GeminiService.done := false; GeminiService.uri := None |}
          else {| GeminiService.done := true;
                  GeminiService.uri := Some "https://video.example/v1" |}) |}.


(** A job that reports not done [n] times, handle included, and is done
    with a link from then on. *)
Definition job_done_after (n : nat) : GeminiService.VideoService :=
  {| GeminiService.generateVideos := fun _ =>
       JS.Fulfilled {| GeminiService.done := bool_decide (n = 0)%nat;
                       GeminiService.uri := Some "https://video.example/v1" |};
     GeminiService.getVideosOperation := fun i =>
       JS.Fulfilled {| GeminiService.done := bool_decide (n <= i)%nat;
                       GeminiService.uri := Some "https://video.example/v1" |} |}.

(** An answer of the image model whose first candidate has a text part
    followed by two image parts, and a second candidate. *)
Definition sample_image_response : GeminiService.ImageResponse :=
  {| GeminiService.candidates := Some
       [ {| GeminiService.parts := Some
              [ {| GeminiService.inlineData := None |};
                {| GeminiService.inlineData :=
                     Some {| GeminiService.data := Some "iVBORw0KGgo=" |} |};
                {| GeminiService.inlineData :=
                     Some {| GeminiService.data := Some "AAAA" |} |} ] |};
         {| GeminiService.parts := Some
              [ {| GeminiService.inlineData :=
                     Some {| GeminiService.data := Some "BBBB" |} |} ] |} ] |}.

(** * Properties *)

(** ** The store operations *)

Section Store.
Implicit Types (m : Model) (arch : Archetype) (l : list Archetype).

Lemma filter_other_absent arch l :
  arch ∉ l -> filter (fun a => a ≠ arch) l = l.
Proof.
  induction l as [|a l IH]; intros Hnotin; [reflexivity|].
  apply not_elem_of_cons in Hnotin as [Hne Hl].
  rewrite filter_cons_True by congruence.
  by rewrite IH.
Qed.

Lemma filter_other_removes arch l : arch ∉ filter (fun a => a ≠ arch) l.
Proof. rewrite list_elem_of_filter. tauto. Qed.

Lemma toggled_absent arch l : arch ∉ l -> toggled arch l = l ++ [arch].
Proof. intros H. unfold toggled. by rewrite bool_decide_eq_false_2. Qed.

Lemma toggled_present arch l :
  arch ∈ l -> toggled arch l = filter (fun a => a ≠ arch) l.
Proof. intros H. unfold toggled. by rewrite bool_decide_eq_true_2. Qed.

Lemma toggled_twice_absent arch l :
  arch ∉ l -> toggled arch (toggled arch l) = l.
Proof.
  intros H. rewrite (toggled_absent _ _ H), toggled_present by set_solver.
  rewrite filter_app, (filter_other_absent _ _ H).
  rewrite filter_cons_False by tauto. by rewrite filter_nil, app_nil_r.
Qed.

Lemma toggled_twice_present arch l :
  arch ∈ l ->
  toggled arch (toggled arch l) = filter (fun a => a ≠ arch) l ++ [arch].
Proof.
  intros H. rewrite (toggled_present _ _ H).
  apply toggled_absent, filter_other_removes.
Qed.

Lemma toggleArchetype_archetypes arch m :
  archetypes (config (toggleArchetype arch m)) = toggled arch (archetypes (config m)).
Proof. reflexivity. Qed.

Lemma toggleArchetype_twice_absent arch m :
  arch ∉ archetypes (config m) -> toggleArchetype arch (toggleArchetype arch m) = m.
Proof.
  destruct m as [? ? ? ? ? ? ? ? ? [g mo l c i]]; simpl. intros H.
  unfold toggleArchetype, setConfig, with_archetypes; simpl.
  by rewrite (toggled_twice_absent _ _ H).
Qed.

End Store.

(** C7 (as stated) fails: with Reluctant Hero selected first and Wise Mentor
    second, toggling Reluctant Hero twice leaves it after Wise Mentor. *)
Lemma toggleArchetype_twice_reorders :
  let m := initial |> toggleArchetype Reluctant_Hero |> toggleArchetype Wise_Mentor in
  archetypes (config m) = [Reluctant_Hero; Wise_Mentor] /\
  archetypes (config (m |> toggleArchetype Reluctant_Hero |> toggleArchetype Reluctant_Hero))
    = [Wise_Mentor; Reluctant_Hero] /\
  archetypes (config (m |> toggleArchetype Reluctant_Hero |> toggleArchetype Reluctant_Hero))
    <> archetypes (config m).
Proof. repeat split. discriminate. Qed.

(** C7 (amended): toggling an archetype twice gives back the same members.
    When the archetype was not selected, the whole store is the one before,
    so the list has its original value and order; when it was selected, the
    result is the original list without it, followed by it. *)
Theorem toggleArchetype_twice (arch : Archetype) (m : Model) :
  let l := archetypes (config m) in
  let m'' := m |> toggleArchetype arch |> toggleArchetype arch in
  (forall a, a ∈ archetypes (config m'') <-> a ∈ l) /\
  (arch ∉ l -> m'' = m) /\
  (arch ∈ l -> archetypes (config m'') = filter (fun a => a ≠ arch) l ++ [arch]).
Proof.
  intros l m''. subst l m''. rewrite !toggleArchetype_archetypes.
  split; [|split].
  - intros a. destruct (decide (arch ∈ archetypes (config m))) as [Hin|Hnotin].
    + rewrite (toggled_twice_present _ _ Hin), elem_of_app, list_elem_of_filter.
      rewrite list_elem_of_singleton.
      split; [intros [[_ ?]| ->]; assumption|].
      intros Ha. destruct (decide (a = arch)); auto.
    + by rewrite (toggled_twice_absent _ _ Hnotin).
  - apply toggleArchetype_twice_absent.
  - apply toggled_twice_present.
Qed.

(** C9: [reset], whatever the phase, clears the video reference, the scene,
    the uploaded payload and the error, clears the loaded flag, and moves the
    phase to UPLOAD. *)
Theorem reset_clears_project (m : Model) :
  videoUrl (reset m) = None /\
  sceneInfo (reset m) = None /\
  pdfBase64 (reset m) = None /\
  error (reset m) = None /\
  videoLoaded (reset m) = false /\
  state (reset m) = UPLOAD.
Proof. repeat split. Qed.

(** C10: [reset] leaves the configuration as it was. *)
Theorem reset_keeps_config (m : Model) :
  config (reset m) = config m /\
  genre (config (reset m)) = genre (config m) /\
  mood (config (reset m)) = mood (config m) /\
  camera (config (reset m)) = camera (config m) /\
  includeSubtitles (config (reset m)) = includeSubtitles (config m) /\
  archetypes (config (reset m)) = archetypes (config m).
Proof. repeat split. Qed.

(** ** The request schema *)

(** C3: the schema that [analyzeScript] requests has a [subtitles] property
    that is listed in [required] when [includeSubtitles] is set, and has it
    neither among the properties nor in [required] otherwise. *)
Theorem responseSchema_subtitles (config : GenerationConfig) :
  let schema := GeminiService.responseSchema config in
  (includeSubtitles config = true ->
     is_Some (GeminiService.properties schema !! "subtitles") /\
     "subtitles" ∈ GeminiService.required schema) /\
  (includeSubtitles config = false ->
     GeminiService.properties schema !! "subtitles" = None /\
     "subtitles" ∉ GeminiService.required schema).
Proof.
  destruct config as [g mo l c i]. unfold GeminiService.responseSchema. simpl.
  split; intros ->; simpl.
  - split; [rewrite lookup_insert_eq; eauto | by apply (bool_decide_unpack _)].
  - split; [by simplify_map_eq | by apply (bool_decide_unpack _)].
Qed.

(** The six fields are required either way, and nothing else is. *)
Lemma responseSchema_required (config : GenerationConfig) :
  GeminiService.required (GeminiService.responseSchema config) =
  ["title"; "description"; "visualPrompt"; "genre"; "mood"; "characters"]
  ++ (if includeSubtitles config then ["subtitles"] else []).
Proof. by destruct config as [? ? ? ? []]. Qed.

(** Two configurations that differ in the switch only. *)
Example responseSchema_two_configs :
  let with_subs := config initial in
  let without := config initial |> with_includeSubtitles false in
  GeminiService.required (GeminiService.responseSchema with_subs)
    = ["title"; "description"; "visualPrompt"; "genre"; "mood"; "characters"; "subtitles"] /\
  GeminiService.required (GeminiService.responseSchema without)
    = ["title"; "description"; "visualPrompt"; "genre"; "mood"; "characters"] /\
  (GeminiService.type <$> GeminiService.properties (GeminiService.responseSchema with_subs)
                            !! "subtitles") = Some GeminiService.ARRAY /\
  GeminiService.properties (GeminiService.responseSchema without) !! "subtitles" = None.
Proof. repeat split. Qed.

(** ** Upload *)

Lemma reader_onload_state (result : option string) (m : Model) :
  state (reader_onload result m) =
  match result with Some _ => CONFIGURE | None => state m end.
Proof. by destruct result. Qed.

(** C6: offered a file in the UPLOAD phase, the handler reaches CONFIGURE
    exactly when the MIME type is ['application/pdf'] and the reader loads
    the file; it then stores the part of the data URL after the first comma
    and clears the error.  For any other MIME type only the error changes:
    it is set to the upload message, and the phase is still UPLOAD. *)
Theorem handleFileUpload_pdf_only (m : Model) (file : File) :
  state m = UPLOAD ->
  let m' := handleFileUpload (Some file) m in
  (state m' = CONFIGURE <->
     type file = "application/pdf" /\
     exists result, readAsDataURL file = Onload (Some result)) /\
  (forall result,
     type file = "application/pdf" -> readAsDataURL file = Onload (Some result) ->
     state m' = CONFIGURE /\
     pdfBase64 m' = JS.split "," result !! 1%nat /\
     error m' = None) /\
  (type file <> "application/pdf" ->
     m' = (m |> setError (Some "Please upload a valid PDF script.")) /\
     state m' = UPLOAD /\
     error m' = Some "Please upload a valid PDF script.").
Proof.
  intros Hstate m'. subst m'. unfold handleFileUpload, handleFileUpload_sync.
  destruct (String.eqb_spec (type file) "application/pdf") as [Hpdf|Hother]; simpl.
  - split; [|split]; [| |tauto].
    + destruct (readAsDataURL file) as [[result|]|]; simpl.
      * split; [eauto|reflexivity].
      * rewrite Hstate. split; [discriminate|]. intros [_ [? [=]]].
      * rewrite Hstate. split; [discriminate|]. intros [_ [? [=]]].
    + intros result _ ->. done.
  - split; [|split].
    + rewrite Hstate. split; [discriminate|tauto].
    + tauto.
    + done.
Qed.

Lemma handleFileUpload_pdf_only_witness :
  state (handleFileUpload (Some sample_pdf) (initial |> setState UPLOAD)) = CONFIGURE /\
  pdfBase64 (handleFileUpload (Some sample_pdf) (initial |> setState UPLOAD))
    = Some "JVBERi0xLjQK".
Proof.
  destruct (handleFileUpload_pdf_only (initial |> setState UPLOAD) sample_pdf eq_refl)
    as (_ & Hpdf & _).
  destruct (Hpdf _ eq_refl eq_refl) as (Hstate & Hpayload & _).
  split; [exact Hstate | exact Hpayload].
Defined.

(** ** Analysis and rendering failures *)

(** If [analyzeScript] rejects, the scene is the one before the click. *)
Lemma startAnalysis_rejected_sceneInfo analyzeScript generateStoryboard
    (m : Model) (apiErr : JS.Error) :
  analyzeScript (default "" (pdfBase64 m)) (config m) = JS.Rejected apiErr ->
  sceneInfo (startAnalysis analyzeScript generateStoryboard m) = sceneInfo m /\
  config (startAnalysis analyzeScript generateStoryboard m) = config m.
Proof.
  intros Hrej. unfold startAnalysis, startAnalysis_sync, startAnalysis_catch.
  destruct (JS.truthy (pdfBase64 m)); simpl; [|done].
  rewrite Hrej.
  destruct (from_option (JS.includes _) _ _); split; reflexivity.
Qed.

(** C4: when the analysis call made from CONFIGURE rejects with a message
    that contains "Requested entity was not found", the phase becomes
    KEY_SELECTION, the error is the session-expired text, and the scene,
    null before, is still null. *)
Theorem startAnalysis_credential_expired analyzeScript generateStoryboard
    (m : Model) (apiErr : JS.Error) (msg : string) :
  state m = CONFIGURE ->
  JS.truthy (pdfBase64 m) = true ->
  sceneInfo m = None ->
  analyzeScript (default "" (pdfBase64 m)) (config m) = JS.Rejected apiErr ->
  JS.message apiErr = Some msg ->
  JS.includes "Requested entity was not found" msg = true ->
  let m' := startAnalysis analyzeScript generateStoryboard m in
  state m' = KEY_SELECTION /\
  error m' = Some "Your API key session expired. Please re-select your project." /\
  sceneInfo m' = None.
Proof.
  intros _ Hpdf Hscene Hrej Hmsg Hincl m'. subst m'.
  unfold startAnalysis, startAnalysis_sync, startAnalysis_catch.
  rewrite Hpdf; simpl. rewrite Hrej, Hmsg; simpl. rewrite Hincl; simpl.
  by rewrite Hscene.
Qed.

Lemma startAnalysis_credential_expired_witness :
  state (startAnalysis (fun _ _ => JS.Rejected expired) (fun _ => JS.Fulfilled "") configured)
    = KEY_SELECTION.
Proof.
  exact (proj1 (startAnalysis_credential_expired
                  (fun _ _ => JS.Rejected expired) (fun _ => JS.Fulfilled "")
                  configured expired _ eq_refl eq_refl eq_refl eq_refl eq_refl eq_refl)).
Defined.

Lemma or_else_truthy (a : option string) (b : string) :
  b <> "" -> JS.truthy (Some (JS.or_else a b)) = true.
Proof.
  intros Hb. unfold JS.or_else, JS.truthy.
  destruct a as [s|]; [destruct (String.eqb_spec s "")|];
    apply negb_true_iff, String.eqb_neq; assumption.
Qed.

(** Progress messages only replace the loading message. *)
Lemma progress_frame (msgs : list string) (m : Model) :
  let m' := foldl (fun m msg => m |> setLoadingMsg msg) m msgs in
  state m' = state m /\ error m' = error m /\ sceneInfo m' = sceneInfo m /\
  videoUrl m' = videoUrl m /\ pdfBase64 m' = pdfBase64 m /\ config m' = config m.
Proof.
  revert m. induction msgs as [|msg msgs IH]; intros m; simpl; [done|].
  apply (IH (setLoadingMsg msg m)).
Qed.

(** C5: when the render started from STORYBOARD rejects, whatever the
    error, the phase is STORYBOARD again (not CONFIGURE), an error message is
    set (the error's own message, or "Video generation failed." when it has
    none), and the scene is the one before, storyboard image and subtitles
    included. *)
Theorem startVideoGeneration_rejected generateVideo
    (m : Model) (scene : MovieScene) (trace : list GeminiService.Effect)
    (apiErr : JS.Error) :
  state m = STORYBOARD ->
  sceneInfo m = Some scene ->
  generateVideo (visualPrompt scene) = (trace, GeminiService.Rejects apiErr) ->
  let m' := startVideoGeneration generateVideo m in
  state m' = STORYBOARD /\
  state m' <> CONFIGURE /\
  error m' = Some (JS.or_else (JS.message apiErr) "Video generation failed.") /\
  JS.truthy (error m') = true /\
  sceneInfo m' = Some scene /\
  (storyboardImage <$> sceneInfo m') = (storyboardImage <$> sceneInfo m) /\
  (subtitles <$> sceneInfo m') = (subtitles <$> sceneInfo m).
Proof.
  intros _ Hscene Hrun m'.
  assert (Herr : error m' = Some (JS.or_else (JS.message apiErr) "Video generation failed.")
                 /\ state m' = STORYBOARD /\ sceneInfo m' = sceneInfo m).
  { subst m'. unfold startVideoGeneration, startVideoGeneration_sync.
    rewrite Hscene, Hrun. unfold startVideoGeneration_catch; simpl.
    repeat split.
    by destruct (progress_frame (GeminiService.progressOf trace)
                   (setVideoLoaded false (setState GENERATING
                      (setLoadingMsg "Rendering Cinematic Vision..." m))))
      as (_ & _ & -> & _). }
  destruct Herr as (Herr & Hstate & Hsame).
  rewrite Herr, Hstate, Hsame, Hscene.
  repeat split; [discriminate|]. by apply or_else_truthy.
Qed.

Lemma startVideoGeneration_rejected_witness :
  state (startVideoGeneration
           (fun _ => ([GeminiService.OnProgress "Initializing cinematic engine..."],
                      GeminiService.Rejects {| JS.message := None |}))
           storyboarded) = STORYBOARD.
Proof.
  exact (proj1 (startVideoGeneration_rejected
                  (fun _ => ([GeminiService.OnProgress "Initializing cinematic engine..."],
                             GeminiService.Rejects {| JS.message := None |}))
                  storyboarded _ _ {| JS.message := None |}
                  eq_refl eq_refl eq_refl)).
Defined.

(** ** Subtitle edits *)

Lemma array_get_set {A} (a : list (option A)) (i : nat) (v : A) :
  JS.array_get (JS.array_set a i v) i = Some v.
Proof.
  unfold JS.array_get, JS.array_set. case_decide as Hi.
  - by rewrite list_lookup_insert_eq.
  - rewrite lookup_app_r by lia.
    rewrite lookup_app_r by (rewrite length_replicate; lia).
    rewrite length_replicate. by replace (i - length a - (i - length a))%nat with 0%nat by lia.
Qed.

Lemma array_get_set_other {A} (a : list (option A)) (i j : nat) (v : A) :
  (j < length a)%nat -> j <> i -> JS.array_get (JS.array_set a i v) j = JS.array_get a j.
Proof.
  intros Hj Hne. unfold JS.array_get, JS.array_set. case_decide as Hi.
  - by rewrite list_lookup_insert_ne.
  - by rewrite lookup_app_l.
Qed.

Lemma time_of_with_time (field : TimeField) (v : JS.number) (sub : Subtitle) :
  time_of field (with_time field v sub) = Some v.
Proof. by destruct field. Qed.

(** C8: [updateSubtitleTime] completes normally for every index, field and
    input.  Without a scene it changes nothing; with one, the field it
    writes holds [0] when the input does not parse ([parseFloat] gives NaN)
    and the parsed number otherwise, so it is never NaN. *)
Theorem updateSubtitleTime_coerces (parseFloat : string -> JS.number)
    (index : nat) (field : TimeField) (value : string) (m : Model) :
  exists m', updateSubtitleTime parseFloat index field value m = JS.Normal m' /\
    (sceneInfo m = None -> m' = m) /\
    (is_Some (sceneInfo m) ->
       stored_time index field m' <> Some JS.NaN /\
       (parseFloat value = JS.NaN -> stored_time index field m' = Some JS.zero) /\
       (parseFloat value <> JS.NaN -> stored_time index field m' = Some (parseFloat value))).
Proof.
  unfold updateSubtitleTime. destruct (sceneInfo m) as [scene|] eqn:Hscene; simpl.
  - eexists; split; [reflexivity|]. split; [discriminate|]. intros _.
    unfold stored_time; simpl.
    rewrite array_get_set; simpl. rewrite time_of_with_time.
    unfold JS.zero. destruct (parseFloat value) eqn:Hval; simpl; repeat split; congruence.
  - exists m. split; [reflexivity|]. split; [reflexivity|].
    intros [? ?]; discriminate.
Qed.

(** With the reference [parseFloat]: "abc" stores [0], "1.5" stores [1.5],
    also in a row past the end of the array. *)
Example updateSubtitleTime_abc :
  (stored_time 0 EndTime <$> updateSubtitleTime JS.parseFloat 0 EndTime "abc" storyboarded
     = JS.Normal (Some JS.zero)) /\
  (stored_time 0 StartTime <$> updateSubtitleTime JS.parseFloat 0 StartTime "1.5" storyboarded
     = JS.Normal (Some (JS.Finite (Qmake 15 10)))) /\
  (stored_time 3 StartTime <$> updateSubtitleTime JS.parseFloat 3 StartTime "" storyboarded
     = JS.Normal (Some JS.zero)).
Proof. repeat split. Qed.

(** ** The trigger of the analysis *)

(** The handler itself does not look at the archetypes: with a payload it
    enters ANALYZING.  The precondition lives in the button. *)
Lemma startAnalysis_sync_unguarded (m : Model) :
  JS.truthy (pdfBase64 m) = true -> state (startAnalysis_sync m) = ANALYZING.
Proof. intros H. unfold startAnalysis_sync. by rewrite H. Qed.

(** With an archetype selected and a payload, the click fires the
    transition. *)
Lemma step_InitializeStoryboard_fires parseFloat (m : Model) :
  state m = CONFIGURE ->
  archetypes (config m) <> [] ->
  JS.truthy (pdfBase64 m) = true ->
  exists m', step parseFloat InitializeStoryboard m = JS.Normal m' /\ state m' = ANALYZING.
Proof.
  intros Hstate Harch Hpdf. unfold step, rendered, disabled. rewrite Hstate.
  destruct (archetypes (config m)) as [|a l]; [done|]. simpl.
  eexists; split; [reflexivity|]. by apply startAnalysis_sync_unguarded.
Qed.

(** What comes back from outside never moves the phase to ANALYZING. *)
Lemma startAnalysis_catch_state (apiErr : JS.Error) (m : Model) :
  state (startAnalysis_catch apiErr m) = KEY_SELECTION \/
  state (startAnalysis_catch apiErr m) = CONFIGURE.
Proof. unfold startAnalysis_catch. destruct (from_option _ _ _); auto. Qed.

(** C1: in CONFIGURE with no archetype selected, the INITIALIZE STORYBOARD
    button is disabled and acting on it changes nothing, whatever the genre,
    mood, camera and subtitle switch; and no event at all takes the phase
    from there to ANALYZING. *)
Theorem no_analysis_without_archetype (parseFloat : string -> JS.number) (m : Model) :
  state m = CONFIGURE ->
  archetypes (config m) = [] ->
  disabled InitializeStoryboard m = true /\
  step parseFloat InitializeStoryboard m = JS.Normal m /\
  (forall e m', step parseFloat e m = JS.Normal m' -> state m' <> ANALYZING).
Proof.
  intros Hstate Harch.
  assert (Hdis : disabled InitializeStoryboard m = true).
  { unfold disabled. by rewrite Harch. }
  split; [exact Hdis|]. split.
  { unfold step. by rewrite Hdis, andb_false_r. }
  intros e m'. unfold step.
  destruct e; unfold rendered, storyboard_view, result_view; rewrite ?Hdis, ?Hstate;
    simpl; try (intros [= <-]; simpl; rewrite ?Hstate; discriminate).
  - (* KeyChecked *)
    destruct hasKey as [[]|]; intros [= <-]; simpl; rewrite ?Hstate; discriminate.
  - (* KeyDialogClosed *)
    destruct opened; intros [= <-]; simpl; rewrite ?Hstate; discriminate.
  - (* ReaderOnload *)
    intros [= <-]. rewrite reader_onload_state, Hstate. by destruct result.
  - (* AnalysisRejected *)
    intros [= <-]. destruct (startAnalysis_catch_state apiErr m) as [-> | ->]; discriminate.
Qed.

Lemma no_analysis_without_archetype_witness :
  step JS.parseFloat InitializeStoryboard configured = JS.Normal configured.
Proof.
  exact (proj1 (proj2 (no_analysis_without_archetype JS.parseFloat configured
                         eq_refl eq_refl))).
Defined.

(** ** The polling loop *)

Section Polling.
Import GeminiService.
Variable API_KEY : option string.
Variable service : VideoService.

Lemma progressMessage_wraps (i : nat) :
  progressMessage (i + length progressMessages) = progressMessage i.
Proof.
  unfold progressMessage. f_equal. f_equal.
  rewrite <- (Nat.mul_1_l (length progressMessages)) at 1.
  by rewrite Nat.Div0.mod_add.
Qed.

Lemma poll_reports (n : nat) : forall fuel k operation final,
  reports service k operation n final ->
  (n <= fuel)%nat ->
  poll API_KEY service fuel operation k
  = (concat (turn <$> seq k n), download API_KEY final).
Proof.
  induction n as [|n IH]; intros fuel k operation final Hrep Hfuel; simpl in Hrep.
  - destruct Hrep as [Hdone ->]. destruct fuel; simpl; by rewrite Hdone.
  - destruct Hrep as (Hdone & next & Hnext & Hrep).
    destruct fuel as [|fuel]; [lia|]. simpl. rewrite Hdone, Hnext.
    by rewrite (IH fuel (S k) next final Hrep) by lia.
Qed.

Lemma progressOf_turns (k n : nat) :
  progressOf (concat (turn <$> seq k n)) = progressMessage <$> seq k n.
Proof.
  revert k. induction n as [|n IH]; intros k; simpl; [done|].
  unfold progressOf in *. simpl. by rewrite IH.
Qed.

(** The run of [generateVideo] on a job that is done after [n] refreshes:
    the start message, then message [i mod 6] for [i = 0 .. n-1], each
    followed by the wait and the refresh. *)
Lemma generateVideo_reports (n fuel : nat) (prompt : string) (operation final : Operation) :
  generateVideos service prompt = JS.Fulfilled operation ->
  reports service 0 operation n final ->
  (n <= fuel)%nat ->
  generateVideo API_KEY service fuel prompt
  = ([OnProgress "Initializing cinematic engine..."; GenerateVideos prompt]
       ++ concat (turn <$> seq 0 n),
     download API_KEY final).
Proof.
  intros Hstart Hrep Hfuel. unfold generateVideo.
  by rewrite Hstart, (poll_reports n fuel 0 operation final Hrep Hfuel).
Qed.

(** The messages of such a run: the start message, then the list taken
    cyclically, one message per refresh. *)
Lemma generateVideo_progress (n fuel : nat) (prompt : string) (operation final : Operation) :
  generateVideos service prompt = JS.Fulfilled operation ->
  reports service 0 operation n final ->
  (n <= fuel)%nat ->
  progressOf (generateVideo API_KEY service fuel prompt).1
  = "Initializing cinematic engine..." :: (progressMessage <$> seq 0 n).
Proof.
  intros Hstart Hrep Hfuel.
  rewrite (generateVideo_reports n fuel prompt operation final Hstart Hrep Hfuel).
  simpl. unfold progressOf at 1. simpl. f_equal. apply progressOf_turns.
Qed.


End Polling.

(** C2 (as stated) fails.  On the job done at its fourth status
    [onProgress] is called four times, the first time with the start
    message, which is not in the list, and the promise resolves with the link
    followed by the key rather than with the reported link.  When the four
    polls are counted as refreshes, the list messages are four. *)
Lemma generateVideo_progress_not_three :
  let run := GeminiService.generateVideo (Some "KEY") job_done_at_4th_status 10 "prompt" in
  let run' := GeminiService.generateVideo (Some "KEY") job_done_at_4th_refresh 10 "prompt" in
  GeminiService.progressOf run.1
    = ["Initializing cinematic engine..."; "Drafting storyboards...";
       "Setting up virtual lighting..."; "Capturing initial frames..."] /\
  length (GeminiService.progressOf run.1) <> 3%nat /\
  run.2 = GeminiService.Resolves "https://video.example/v1&key=KEY" /\
  run.2 <> GeminiService.Resolves "https://video.example/v1" /\
  length (GeminiService.progressOf run'.1) = 5%nat.
Proof. repeat split; discriminate. Qed.

(** C2 (amended): on a job whose handle and first two refreshes report not
    done and whose third refresh reports done, [onProgress] receives the
    start message and then exactly three messages, those of the list at
    indices 0, 1 and 2; the service is refreshed three times; and the run
    ends as the last status decides: with its link followed by ["&key="] and
    the key, or with the error "Video generation failed" when it has no
    link. *)
Theorem generateVideo_three_pending (API_KEY : option string)
    (service : GeminiService.VideoService) (prompt : string) (fuel : nat)
    (op1 op2 op3 op4 : GeminiService.Operation) :
  GeminiService.generateVideos service prompt = JS.Fulfilled op1 ->
  GeminiService.getVideosOperation service 1 = JS.Fulfilled op2 ->
  GeminiService.getVideosOperation service 2 = JS.Fulfilled op3 ->
  GeminiService.getVideosOperation service 3 = JS.Fulfilled op4 ->
  GeminiService.done op1 = false ->
  GeminiService.done op2 = false ->
  GeminiService.done op3 = false ->
  GeminiService.done op4 = true ->
  (3 <= fuel)%nat ->
  let run := GeminiService.generateVideo API_KEY service fuel prompt in
  GeminiService.progressOf run.1
    = ["Initializing cinematic engine..."; "Drafting storyboards...";
       "Setting up virtual lighting..."; "Capturing initial frames..."] /\
  GeminiService.progressOf run.1
    = "Initializing cinematic engine..."
      :: ((fun i => default "" (GeminiService.progressMessages !! i)) <$> [0; 1; 2]%nat) /\
  GeminiService.refreshesOf run.1 = 3%nat /\
  run.2 = GeminiService.download API_KEY op4 /\
  (forall link, GeminiService.uri op4 = Some link -> link <> "" ->
     run.2 = GeminiService.Resolves (link ++ "&key=" ++ default "undefined" API_KEY)) /\
  (JS.truthy (GeminiService.uri op4) = false ->
     run.2 = GeminiService.Rejects {| JS.message := Some "Video generation failed" |}).
Proof.
  intros Hstart H1 H2 H3 Hd1 Hd2 Hd3 Hd4 Hfuel run.
  assert (Hrun : run = ([GeminiService.OnProgress "Initializing cinematic engine...";
                         GeminiService.GenerateVideos prompt]
                          ++ concat (GeminiService.turn <$> seq 0 3),
                        GeminiService.download API_KEY op4)).
  { apply (generateVideo_reports API_KEY service 3 fuel prompt op1 op4 Hstart); [|exact Hfuel].
    simpl. split; [exact Hd1|]. exists op2. split; [exact H1|].
    split; [exact Hd2|]. exists op3. split; [exact H2|].
    split; [exact Hd3|]. exists op4. split; [exact H3|].
    split; [exact Hd4|reflexivity]. }
  rewrite Hrun. do 4 (split; [reflexivity|]). split.
  - intros link Hlink Hne. unfold GeminiService.download, JS.truthy. rewrite Hlink.
    apply String.eqb_neq in Hne. by rewrite Hne.
  - intros Hfalsy. unfold GeminiService.download. by rewrite Hfalsy.
Qed.

Lemma generateVideo_three_pending_witness :
  (GeminiService.generateVideo (Some "KEY") job_done_at_4th_status 3 "prompt").2
    = GeminiService.Resolves "https://video.example/v1&key=KEY".
Proof.
  destruct (generateVideo_three_pending (Some "KEY") job_done_at_4th_status "prompt" 3
              _ _ _ _ eq_refl eq_refl eq_refl eq_refl eq_refl eq_refl eq_refl eq_refl
              (le_n 3))
    as (_ & _ & _ & _ & Hlink & _).
  exact (Hlink "https://video.example/v1" eq_refl ltac:(discriminate)).
Defined.

(** * Further properties of the component and of the service module *)

(** ** Events and the store *)

(** Unfold the handlers that [run] dispatches to. *)
Ltac unfold_handlers :=
  unfold handleFileUpload_sync, reset, toggleArchetype, startAnalysis_sync,
    startVideoGeneration_sync, updateSubtitleTime, updateSubtitleText,
    handleTimeUpdate, checkKey, handleOpenKey, reader_onload, onload_try,
    reader_onerror, startAnalysis_analyzed, startAnalysis_sketched,
    startAnalysis_catch, startVideoGeneration_rendered, startVideoGeneration_catch,
    handleVideoCanPlay_timeout in *.

(** Every handler ends normally: the property reads that could throw are
    behind the guards. *)
Lemma step_normal parseFloat (e : Event) (m : Model) :
  exists m', step parseFloat e m = JS.Normal m'.
Proof.
  unfold step. destruct (rendered e m && negb (disabled e m)); [|by eexists].
  destruct e; simpl; try (by eexists); unfold_handlers;
    destruct (sceneInfo m); simpl; by eexists.
Qed.

Lemma step_archetypes parseFloat (e : Event) (m m' : Model) :
  step parseFloat e m = JS.Normal m' ->
  archetypes (config m') = archetypes (config m) \/
  exists arch, archetypes (config m') = toggled arch (archetypes (config m)).
Proof.
  unfold step, mret, JS.completion_ret.
  destruct (rendered e m && negb (disabled e m)); simpl;
    [|intros [= <-]; left; reflexivity].
  destruct e; simpl; unfold_handlers; unfold mret, JS.completion_ret;
    try (intros [= <-]; simpl; solve [eauto]);
    repeat (match goal with |- context [JS.deref ?o] => destruct o eqn:? end; simpl);
    repeat case_match; simpl in *; intros [= <-]; simpl; solve [eauto].
Qed.

Lemma toggled_NoDup (arch : Archetype) (l : list Archetype) :
  NoDup l -> NoDup (toggled arch l).
Proof.
  intros Hl. unfold toggled. case_bool_decide as Hin.
  - by apply NoDup_filter.
  - apply NoDup_app. split; [done|]. split; [|apply NoDup_singleton].
    intros a Ha ->%list_elem_of_singleton. contradiction.
Qed.

(** X1: whatever the user and the services do, no archetype is ever selected
    twice: the list of selected archetypes has no duplicate in any store the
    component can reach. *)
Theorem reachable_archetypes_NoDup parseFloat (m : Model) :
  reachable parseFloat m -> NoDup (archetypes (config m)).
Proof.
  induction 1 as [|e m m' _ IH Hstep]; [apply NoDup_nil_2|].
  destruct (step_archetypes _ _ _ _ Hstep) as [-> | [arch ->]]; [done|].
  by apply toggled_NoDup.
Qed.

Lemma reachable_archetypes_NoDup_witness :
  NoDup (archetypes (config (configured |> toggleArchetype Reluctant_Hero))).
Proof.
  apply (reachable_archetypes_NoDup JS.parseFloat).
  apply (reachable_step _ (SelectArchetype Reluctant_Hero) configured); [|reflexivity].
  apply (reachable_step _ (ReaderOnload (Some "data:application/pdf;base64,JVBERi0xLjQK"))
           (handleFileUpload_sync (Some sample_pdf) (initial |> setState UPLOAD)));
    [|reflexivity].
  apply (reachable_step _ (ScriptInput (Some sample_pdf)) (initial |> setState UPLOAD));
    [|reflexivity].
  apply (reachable_step _ (KeyChecked (JS.Fulfilled true)) initial);
    [apply reachable_initial|reflexivity].
Defined.

(** X2: an event that is not a control of the configuration form leaves the
    configuration as it is; in particular every failure, every retry and
    [reset] keep genre, mood, camera, archetypes and the subtitle switch. *)
Theorem step_keeps_config parseFloat (e : Event) (m m' : Model) :
  configures e = false ->
  step parseFloat e m = JS.Normal m' ->
  config m' = config m.
Proof.
  intros Hcfg. unfold step, mret, JS.completion_ret.
  destruct (rendered e m && negb (disabled e m)); simpl;
    [|intros [= <-]; reflexivity].
  destruct e; try discriminate Hcfg; simpl; unfold_handlers; unfold mret, JS.completion_ret;
    try (intros [= <-]; reflexivity);
    repeat (match goal with |- context [JS.deref ?o] => destruct o eqn:? end; simpl);
    repeat case_match; simpl in *; intros [= <-]; reflexivity.
Qed.

Lemma step_keeps_config_witness :
  config (startAnalysis_catch expired (configured |> toggleArchetype Wise_Mentor))
  = config (configured |> toggleArchetype Wise_Mentor).
Proof.
  exact (step_keeps_config JS.parseFloat (AnalysisRejected expired)
           (configured |> toggleArchetype Wise_Mentor) _ eq_refl eq_refl).
Defined.

(** X3: while the phase is ANALYZING or GENERATING no control is on the page:
    whatever the user does changes nothing, so a running analysis or render
    can neither be cancelled nor overtaken by a reset or a second request. *)
Theorem busy_ignores_user parseFloat (e : Event) (m : Model) :
  state m = ANALYZING \/ state m = GENERATING ->
  user_event e = true ->
  rendered e m = false /\ step parseFloat e m = JS.Normal m.
Proof.
  intros Hbusy Huser.
  assert (Hr : rendered e m = false).
  { destruct e; try discriminate Huser;
      unfold rendered, storyboard_view, result_view;
      destruct Hbusy as [-> | ->]; reflexivity. }
  split; [exact Hr|]. unfold step. by rewrite Hr.
Qed.

Lemma busy_ignores_user_witness :
  step JS.parseFloat StartNewProject (startVideoGeneration_sync storyboarded)
  = JS.Normal (startVideoGeneration_sync storyboarded).
Proof.
  exact (proj2 (busy_ignores_user JS.parseFloat StartNewProject
                  (startVideoGeneration_sync storyboarded)
                  (or_intror eq_refl) eq_refl)).
Defined.


(** ** The analysis handler, end to end *)

(** X5: with a payload, when both service calls resolve, the phase is
    STORYBOARD, the scene is the analysis result with the storyboard image
    attached, the error is cleared, and payload and configuration are
    kept. *)
Theorem startAnalysis_succeeds analyzeScript generateStoryboard
    (m : Model) (analysis : MovieScene) (storyboard : string) :
  JS.truthy (pdfBase64 m) = true ->
  analyzeScript (default "" (pdfBase64 m)) (config m) = JS.Fulfilled analysis ->
  generateStoryboard (visualPrompt analysis) = JS.Fulfilled storyboard ->
  let m' := startAnalysis analyzeScript generateStoryboard m in
  state m' = STORYBOARD /\
  sceneInfo m' = Some (analysis |> with_storyboardImage storyboard) /\
  error m' = None /\
  pdfBase64 m' = pdfBase64 m /\
  config m' = config m /\
  storyboard_view m' = true.
Proof.
  intros Hpdf Han Hsb m'. subst m'. unfold startAnalysis, startAnalysis_sync.
  rewrite Hpdf; simpl. rewrite Han, Hsb. repeat split.
Qed.

Lemma startAnalysis_succeeds_witness :
  state storyboarded = STORYBOARD.
Proof.
  exact (proj1 (startAnalysis_succeeds
                  (fun _ _ => JS.Fulfilled sample_scene)
                  (fun _ => JS.Fulfilled "data:image/png;base64,iVBORw0KGgo=")
                  (configured |> toggleArchetype Reluctant_Hero) _ _
                  eq_refl eq_refl eq_refl)).
Defined.

(** X6: when the analysis call rejects with anything but the credential
    signal, the phase is CONFIGURE again, the error is the error's message
    (or the production-error text when it has none), and scene, payload and
    configuration are the ones before, so the same request can be made
    again. *)
Theorem startAnalysis_fails_to_CONFIGURE analyzeScript generateStoryboard
    (m : Model) (apiErr : JS.Error) :
  JS.truthy (pdfBase64 m) = true ->
  analyzeScript (default "" (pdfBase64 m)) (config m) = JS.Rejected apiErr ->
  from_option (JS.includes "Requested entity was not found") false (JS.message apiErr)
    = false ->
  let m' := startAnalysis analyzeScript generateStoryboard m in
  state m' = CONFIGURE /\
  error m' = Some (JS.or_else (JS.message apiErr)
                     "A production error occurred. Please try again.") /\
  JS.truthy (error m') = true /\
  sceneInfo m' = sceneInfo m /\
  pdfBase64 m' = pdfBase64 m /\
  config m' = config m.
Proof.
  intros Hpdf Hrej Hother m'. subst m'.
  unfold startAnalysis, startAnalysis_sync, startAnalysis_catch.
  rewrite Hpdf; simpl. rewrite Hrej, Hother. simpl.
  repeat split. by apply or_else_truthy.
Qed.

Lemma startAnalysis_fails_to_CONFIGURE_witness :
  state (startAnalysis (fun _ _ => JS.Rejected {| JS.message := None |})
                       (fun _ => JS.Fulfilled "") configured) = CONFIGURE.
Proof.
  exact (proj1 (startAnalysis_fails_to_CONFIGURE
                  (fun _ _ => JS.Rejected {| JS.message := None |})
                  (fun _ => JS.Fulfilled "") configured _
                  eq_refl eq_refl eq_refl)).
Defined.



(** ** Upload: the payload and the unreadable file *)

Lemma includes_comma_cons (c : ascii) (rest : string) :
  JS.includes "," (String c rest) = Ascii.eqb c "," || JS.includes "," rest.
Proof.
  change (JS.includes "," (String c rest))
    with (if String.prefix "," (String c rest) then true else JS.includes "," rest).
  cbn [String.prefix]. destruct (ascii_dec "," c) as [<-|Hne].
  - by destruct rest.
  - destruct (Ascii.eqb_spec c ","); [congruence|reflexivity].
Qed.

Lemma split_no_comma (s : string) :
  JS.includes "," s = false -> JS.split "," s = [s].
Proof.
  induction s as [|c s IH]; [done|].
  rewrite includes_comma_cons. intros [Hc Hs]%orb_false_elim.
  simpl. rewrite Hc. by rewrite (IH Hs).
Qed.

Lemma split_at_first_comma (header rest : string) :
  JS.includes "," header = false ->
  JS.split "," (header ++ "," ++ rest) = header :: JS.split "," rest.
Proof.
  induction header as [|c header IH]; [done|].
  rewrite includes_comma_cons. intros [Hc Hs]%orb_false_elim.
  simpl. rewrite Hc. simpl in IH. by rewrite (IH Hs).
Qed.

(** X8: for a PDF read as a data URL, header, comma, payload, the store holds
    exactly the payload (base64 text has no comma), and the phase is
    CONFIGURE. *)
Theorem handleFileUpload_stores_payload (m : Model) (file : File) (header payload : string) :
  type file = "application/pdf" ->
  readAsDataURL file = Onload (Some (header ++ "," ++ payload)%string) ->
  JS.includes "," header = false ->
  JS.includes "," payload = false ->
  pdfBase64 (handleFileUpload (Some file) m) = Some payload /\
  state (handleFileUpload (Some file) m) = CONFIGURE /\
  loadingMsg (handleFileUpload (Some file) m) = "".
Proof.
  intros Htype Hread Hheader Hpayload. unfold handleFileUpload, handleFileUpload_sync.
  rewrite Htype, Hread. simpl.
  rewrite (split_at_first_comma _ _ Hheader), (split_no_comma _ Hpayload).
  done.
Qed.

Lemma handleFileUpload_stores_payload_witness :
  pdfBase64 configured = Some "JVBERi0xLjQK".
Proof.
  exact (proj1 (handleFileUpload_stores_payload (initial |> setState UPLOAD) sample_pdf
                  "data:application/pdf;base64" "JVBERi0xLjQK"
                  eq_refl eq_refl eq_refl eq_refl)).
Defined.

(** X9: a PDF whose data URL has nothing after its comma, or no comma at all
    (an empty file), still moves the phase to CONFIGURE, but the stored
    payload is falsy, and from that store [startAnalysis] does nothing,
    whatever is configured: the analysis cannot be started until another
    file is chosen. *)
Theorem empty_payload_blocks_analysis analyzeScript generateStoryboard
    (m : Model) (file : File) (result : string) :
  type file = "application/pdf" ->
  readAsDataURL file = Onload (Some result) ->
  JS.truthy (JS.split "," result !! 1%nat) = false ->
  let m' := handleFileUpload (Some file) m in
  state m' = CONFIGURE /\
  error m' = None /\
  (forall arch, startAnalysis analyzeScript generateStoryboard (m' |> toggleArchetype arch)
                = (m' |> toggleArchetype arch)) /\
  startAnalysis_sync m' = m'.
Proof.
  intros Htype Hread Hfalsy m'. subst m'. unfold handleFileUpload, handleFileUpload_sync.
  rewrite Htype, Hread. simpl.
  unfold startAnalysis, startAnalysis_sync. simpl. rewrite Hfalsy. done.
Qed.

Lemma empty_payload_blocks_analysis_witness :
  state (handleFileUpload
           (Some {| type := "application/pdf";
                    readAsDataURL := Onload (Some "data:application/pdf;base64,") |})
           (initial |> setState UPLOAD)) = CONFIGURE.
Proof.
  exact (proj1 (empty_payload_blocks_analysis
                  (fun _ _ => JS.Fulfilled sample_scene) (fun _ => JS.Fulfilled "")
                  (initial |> setState UPLOAD)
                  {| type := "application/pdf";
                     readAsDataURL := Onload (Some "data:application/pdf;base64,") |}
                  "data:application/pdf;base64," eq_refl eq_refl eq_refl)).
Defined.

(** X10: a PDF that the reader cannot read ([onerror], or [onload] without a
    string result) leaves phase, payload, scene and configuration as they
    were, sets the matching error message and clears the loading message. *)
Theorem handleFileUpload_unreadable (m : Model) (file : File) :
  type file = "application/pdf" ->
  readAsDataURL file = Onerror \/ readAsDataURL file = Onload None ->
  let m' := handleFileUpload (Some file) m in
  state m' = state m /\
  pdfBase64 m' = pdfBase64 m /\
  sceneInfo m' = sceneInfo m /\
  config m' = config m /\
  loadingMsg m' = "" /\
  error m' = Some (match readAsDataURL file with
                   | Onerror => "Failed to read the file. Please try again."
                   | Onload _ => "Error processing script. Please try another file."
                   end).
Proof.
  intros Htype Hread m'. subst m'. unfold handleFileUpload, handleFileUpload_sync.
  rewrite Htype. simpl. by destruct Hread as [-> | ->].
Qed.

Lemma handleFileUpload_unreadable_witness :
  state (handleFileUpload (Some {| type := "application/pdf"; readAsDataURL := Onerror |})
           (initial |> setState UPLOAD)) = UPLOAD.
Proof.
  exact (proj1 (handleFileUpload_unreadable (initial |> setState UPLOAD)
                  {| type := "application/pdf"; readAsDataURL := Onerror |}
                  eq_refl (or_introl eq_refl))).
Defined.

(** ** The render: messages, failures and the loading overlay *)

Section Render.
Import GeminiService.
Variable API_KEY : option string.
Variable service : VideoService.

Lemma progressMessage_nonempty (i : nat) : progressMessage i <> "".
Proof.
  unfold progressMessage.
  pose proof (Nat.mod_upper_bound i (length progressMessages)) as Hlt.
  destruct (i mod length progressMessages) as [|[|[|[|[|[|j]]]]]];
    simpl in *; (discriminate || lia).
Qed.

Lemma poll_messages_nonempty (fuel k : nat) (operation : Operation) :
  Forall (fun msg => msg <> "") (progressOf (poll API_KEY service fuel operation k).1).
Proof.
  revert k operation. induction fuel as [|fuel IH]; intros k operation; simpl;
    destruct (done operation); simpl; try by constructor.
  destruct (getVideosOperation service (S k)) as [next|e]; simpl.
  - specialize (IH (S k) next). destruct (poll API_KEY service fuel next (S k)) as [rest out].
    simpl in *. unfold progressOf in *. simpl.
    constructor; [apply progressMessage_nonempty|exact IH].
  - unfold progressOf. simpl. constructor; [apply progressMessage_nonempty|constructor].
Qed.

Lemma generateVideo_messages (fuel : nat) (prompt : string) :
  exists rest,
    progressOf (generateVideo API_KEY service fuel prompt).1
    = "Initializing cinematic engine..." :: rest /\
    Forall (fun msg => msg <> "") rest.
Proof.
  unfold generateVideo. destruct (generateVideos service prompt) as [operation|e].
  - pose proof (poll_messages_nonempty fuel 0 operation) as Hrest.
    destruct (poll API_KEY service fuel operation 0) as [rest out]. simpl in *.
    exists (progressOf rest). split; [reflexivity|exact Hrest].
  - exists []. split; [reflexivity|constructor].
Qed.

Lemma poll_rejected (n : nat) : forall fuel k operation e,
  done operation = false ->
  (forall i, (k < i <= k + n)%nat ->
     exists next, getVideosOperation service i = JS.Fulfilled next /\ done next = false) ->
  getVideosOperation service (S (k + n)) = JS.Rejected e ->
  (S n <= fuel)%nat ->
  poll API_KEY service fuel operation k = (concat (turn <$> seq k (S n)), Rejects e).
Proof.
  induction n as [|n IH]; intros fuel k operation e Hdone Hpending Hrej Hfuel;
    (destruct fuel as [|fuel]; [lia|]); simpl; rewrite Hdone.
  - rewrite Nat.add_0_r in Hrej. by rewrite Hrej.
  - destruct (Hpending (S k)) as (next & -> & Hnext); [lia|].
    rewrite (IH fuel (S k) next e Hnext); [done| |by rewrite Nat.add_succ_comm|lia].
    intros i Hi. apply Hpending. lia.
Qed.

Lemma refreshesOf_turns (k n : nat) :
  refreshesOf (concat (turn <$> seq k n)) = n.
Proof.
  revert k. induction n as [|n IH]; intros k; [done|].
  unfold refreshesOf in *. simpl. by rewrite IH.
Qed.

End Render.

Lemma loadingMsg_progress (msgs : list string) (m : Model) :
  loadingMsg (foldl (fun m msg => m |> setLoadingMsg msg) m msgs)
  = default (loadingMsg m) (last msgs).
Proof.
  revert m. induction msgs as [|msg msgs IH]; intros m; [done|].
  simpl. rewrite IH. destruct msgs as [|msg' msgs]; [reflexivity|].
  change (last (msg :: msg' :: msgs)) with (last (msg' :: msgs)).
  destruct (proj2 (last_is_Some (msg' :: msgs))) as [x ->]; done.
Qed.

Lemma last_nonempty (msgs : list string) (d : string) :
  d <> "" -> Forall (fun msg => msg <> "") msgs -> default d (last msgs) <> "".
Proof.
  intros Hd Hall. destruct (last msgs) as [msg|] eqn:Hlast; [|exact Hd].
  simpl. apply (proj1 (Forall_forall _ _) Hall). by apply last_Some_elem_of.
Qed.

(** X11: the error of the video service is passed on as it is.  When the job
    cannot be started, only the start message has been emitted and the
    service is not refreshed; when a refresh is rejected after [n] pending
    ones, the run rejects with that error, after [n + 1] turns. *)
Theorem generateVideo_passes_errors (API_KEY : option string)
    (service : GeminiService.VideoService) (prompt : string) (e : JS.Error) :
  (GeminiService.generateVideos service prompt = JS.Rejected e ->
   forall fuel,
     GeminiService.generateVideo API_KEY service fuel prompt
     = ([GeminiService.OnProgress "Initializing cinematic engine...";
         GeminiService.GenerateVideos prompt], GeminiService.Rejects e)) /\
  (forall operation n fuel,
     GeminiService.generateVideos service prompt = JS.Fulfilled operation ->
     GeminiService.done operation = false ->
     (forall i, (0 < i <= n)%nat ->
        exists next, GeminiService.getVideosOperation service i = JS.Fulfilled next /\
                     GeminiService.done next = false) ->
     GeminiService.getVideosOperation service (S n) = JS.Rejected e ->
     (S n <= fuel)%nat ->
     (GeminiService.generateVideo API_KEY service fuel prompt).2 = GeminiService.Rejects e /\
     GeminiService.refreshesOf (GeminiService.generateVideo API_KEY service fuel prompt).1
       = S n).
Proof.
  split.
  - intros Hrej fuel. unfold GeminiService.generateVideo. by rewrite Hrej.
  - intros operation n fuel Hstart Hdone Hpending Hrej Hfuel.
    unfold GeminiService.generateVideo. rewrite Hstart.
    rewrite (poll_rejected API_KEY service n fuel 0 operation e Hdone Hpending Hrej Hfuel).
    split; [reflexivity|].
    change (GeminiService.refreshesOf (concat (GeminiService.turn <$> seq 0 (S n))) = S n).
    apply refreshesOf_turns.
Qed.



(** X13: on a job that reports not done [n] times and then done, the run
    emits the start message and then [n] messages, the [i]-th being the
    entry [i mod 6] of the list, so the list is reused from its start after
    every sixth message; it refreshes the job [n] times and ends as the last
    status decides. *)
Theorem generateVideo_cyclic_messages (API_KEY : option string)
    (service : GeminiService.VideoService) (n fuel : nat) (prompt : string)
    (operation final : GeminiService.Operation) :
  GeminiService.generateVideos service prompt = JS.Fulfilled operation ->
  GeminiService.reports service 0 operation n final ->
  (n <= fuel)%nat ->
  let run := GeminiService.generateVideo API_KEY service fuel prompt in
  GeminiService.progressOf run.1
    = "Initializing cinematic engine..."
      :: ((fun i => default "" (GeminiService.progressMessages !! (i mod 6)%nat))
            <$> seq 0 n) /\
  GeminiService.refreshesOf run.1 = n /\
  run.2 = GeminiService.download API_KEY final.
Proof.
  intros Hstart Hrep Hfuel run. subst run.
  rewrite (generateVideo_progress API_KEY service n fuel _ _ _ Hstart Hrep Hfuel).
  rewrite (generateVideo_reports API_KEY service n fuel _ _ _ Hstart Hrep Hfuel).
  split; [|split; [|reflexivity]].
  - f_equal. apply list_fmap_ext. intros _ i _. unfold GeminiService.progressMessage.
    change (length GeminiService.progressMessages) with 6%nat.
    pose proof (Nat.mod_upper_bound i 6) as Hlt.
    destruct (i mod 6)%nat as [|[|[|[|[|[|j]]]]]]; simpl in *; (reflexivity || lia).
  - change (GeminiService.refreshesOf (concat (GeminiService.turn <$> seq 0 n)) = n).
    apply refreshesOf_turns.
Qed.

Lemma generateVideo_cyclic_messages_witness :
  GeminiService.progressOf
    (GeminiService.generateVideo (Some "KEY") (job_done_after 7) 7 "prompt").1
  = ["Initializing cinematic engine..."; "Drafting storyboards...";
     "Setting up virtual lighting..."; "Capturing initial frames...";
     "Refining textures..."; "Applying cinematic color grade...";
     "Finalizing render..."; "Drafting storyboards..."].
Proof.
  refine (proj1 (generateVideo_cyclic_messages (Some "KEY") (job_done_after 7) 7 7 "prompt" _
                   {| GeminiService.done := true;
                      GeminiService.uri := Some "https://video.example/v1" |}
                   eq_refl _ (le_n 7))).
  simpl. repeat (split; [reflexivity|]; eexists; split; [reflexivity|]).
  split; reflexivity.
Defined.

(** X14: a render that succeeds after [n] pending statuses ends in RESULT with
    the link followed by the key as video reference; the scene is untouched,
    the loaded flag is cleared, the result view is on the page, and the
    loading message is the last progress message.  The error of an earlier
    attempt is not cleared. *)
Theorem startVideoGeneration_renders (API_KEY : option string)
    (service : GeminiService.VideoService) (fuel n : nat) (m : Model) (scene : MovieScene)
    (operation final : GeminiService.Operation) (link : string) :
  sceneInfo m = Some scene ->
  GeminiService.generateVideos service (visualPrompt scene) = JS.Fulfilled operation ->
  GeminiService.reports service 0 operation n final ->
  (n <= fuel)%nat ->
  GeminiService.uri final = Some link ->
  link <> "" ->
  let m' := startVideoGeneration (GeminiService.generateVideo API_KEY service fuel) m in
  state m' = RESULT /\
  videoUrl m' = Some (link ++ "&key=" ++ default "undefined" API_KEY)%string /\
  sceneInfo m' = Some scene /\
  videoLoaded m' = false /\
  error m' = error m /\
  loadingMsg m' = default "Initializing cinematic engine..."
                    (last (GeminiService.progressMessage <$> seq 0 n)) /\
  result_view m' = true.
Proof.
  intros Hscene Hstart Hrep Hfuel Hlink Hne m'. subst m'.
  unfold startVideoGeneration, startVideoGeneration_sync. rewrite Hscene.
  pose proof (generateVideo_progress API_KEY service n fuel _ _ _ Hstart Hrep Hfuel) as Hmsgs.
  rewrite (generateVideo_reports API_KEY service n fuel _ _ _ Hstart Hrep Hfuel) in *.
  cbn [fst] in Hmsgs. rewrite Hmsgs.
  assert (Hdl : GeminiService.download API_KEY final
                = GeminiService.Resolves (link ++ "&key=" ++ default "undefined" API_KEY)).
  { unfold GeminiService.download, JS.truthy. rewrite Hlink.
    apply String.eqb_neq in Hne. by rewrite Hne. }
  rewrite Hdl. unfold startVideoGeneration_rendered.
  set (m1 := setVideoLoaded false _).
  set (msgs := "Initializing cinematic engine..."
               :: (GeminiService.progressMessage <$> seq 0 n)).
  destruct (progress_frame msgs m1) as (Hst & Herr & Hsc & Hvu & Hpdf & Hcfg).
  assert (Hloaded : forall msgs m0,
             videoLoaded (foldl (fun m msg => m |> setLoadingMsg msg) m0 msgs)
             = videoLoaded m0).
  { clear. induction msgs as [|msg msgs IH]; intros m0; [done|]. simpl. by rewrite IH. }
  pose proof (loadingMsg_progress msgs m1) as Hlm.
  pose proof (Hloaded msgs m1) as Hvl.
  remember (foldl (fun m msg => m |> setLoadingMsg msg) m1 msgs) as mf eqn:Hmf.
  unfold result_view. simpl. rewrite Hsc, Herr, Hvl, Hlm.
  subst m1 msgs. simpl. rewrite Hscene, last_cons.
  repeat split.
  - destruct (last (GeminiService.progressMessage <$> seq 0 n)); reflexivity.
  - destruct link as [|c link]; [done|]. reflexivity.
Qed.

Lemma startVideoGeneration_renders_witness :
  state (startVideoGeneration
           (GeminiService.generateVideo (Some "KEY") job_done_at_4th_status 3)
           storyboarded) = RESULT.
Proof.
  refine (proj1 (startVideoGeneration_renders (Some "KEY") job_done_at_4th_status 3 3
                   storyboarded _ _
                   {| GeminiService.done := true;
                      GeminiService.uri := Some "https://video.example/v1" |}
                   "https://video.example/v1"
                   eq_refl eq_refl _ (le_n 3) eq_refl ltac:(discriminate))).
  simpl. repeat (split; [reflexivity|]; eexists; split; [reflexivity|]).
  split; reflexivity.
Defined.

(** X15: no handler but the reader callbacks clears the loading message.  Once
    [startAnalysis] has run with a payload, and once [startVideoGeneration]
    has run with a scene, however they end, the loading message is not empty,
    so the condition under which the loading overlay is rendered still
    holds, in STORYBOARD and RESULT too. *)
Theorem overlay_stays analyzeScript generateStoryboard (API_KEY : option string)
    (service : GeminiService.VideoService) (fuel : nat) (m : Model) :
  (JS.truthy (pdfBase64 m) = true ->
   overlay (startAnalysis analyzeScript generateStoryboard m) = true) /\
  (is_Some (sceneInfo m) ->
   overlay (startVideoGeneration (GeminiService.generateVideo API_KEY service fuel) m)
   = true).
Proof.
  split.
  - intros Hpdf. unfold startAnalysis, startAnalysis_sync, startAnalysis_catch.
    rewrite Hpdf. simpl.
    destruct (analyzeScript _ _) as [analysis|e1]; simpl;
      [destruct (generateStoryboard _) as [storyboard|e2]; simpl|];
      try destruct (from_option (JS.includes _) _ _); reflexivity.
  - intros [scene Hscene]. unfold startVideoGeneration, startVideoGeneration_sync.
    rewrite Hscene.
    destruct (generateVideo_messages API_KEY service fuel (visualPrompt scene))
      as (rest & Hmsgs & Hrest).
    destruct (GeminiService.generateVideo _ _ _ _) as [trace outcome].
    cbn [fst] in Hmsgs. rewrite Hmsgs.
    set (m1 := setVideoLoaded false _).
    assert (Hmsg : negb (String.eqb
                     (loadingMsg (foldl (fun m msg => m |> setLoadingMsg msg) m1
                                    ("Initializing cinematic engine..." :: rest))) "") = true).
    { rewrite loadingMsg_progress. apply negb_true_iff, String.eqb_neq.
      apply last_nonempty; [done|]. by constructor. }
    unfold overlay. destruct outcome; simpl in *; rewrite ?Hmsg, ?orb_true_r; reflexivity.
Qed.

(** X16: the message of a failed analysis or render is stored but not shown:
    the phase it leaves, CONFIGURE or STORYBOARD, has no error element.  Only
    the credential failure, which leads to KEY_SELECTION, is shown. *)
Theorem failure_message_not_shown analyzeScript generateStoryboard generateVideo
    (m : Model) (apiErr : JS.Error) :
  (JS.truthy (pdfBase64 m) = true ->
   analyzeScript (default "" (pdfBase64 m)) (config m) = JS.Rejected apiErr ->
   let m' := startAnalysis analyzeScript generateStoryboard m in
   is_Some (error m') /\
   error_shown m'
   = from_option (JS.includes "Requested entity was not found") false (JS.message apiErr)) /\
  (forall scene trace,
     sceneInfo m = Some scene ->
     generateVideo (visualPrompt scene) = (trace, GeminiService.Rejects apiErr) ->
     let m' := startVideoGeneration generateVideo m in
     is_Some (error m') /\ error_shown m' = false).
Proof.
  split.
  - intros Hpdf Hrej m'. subst m'.
    unfold startAnalysis, startAnalysis_sync, startAnalysis_catch.
    rewrite Hpdf; simpl. rewrite Hrej.
    destruct (from_option (JS.includes _) _ _); simpl; split; eauto.
  - intros scene trace Hscene Hrun m'. subst m'.
    unfold startVideoGeneration, startVideoGeneration_sync.
    rewrite Hscene, Hrun. unfold startVideoGeneration_catch. simpl. split; eauto.
Qed.

(** ** The analysis request and the two content calls *)








(** X18: [analyzeScript] resolves exactly when the service answers with a
    non-empty text that [JSON.parse] accepts, and then with the parsed
    value; a rejection of the service is passed on, an absent or empty text
    rejects with "Failed to analyze script", and a parse error rejects with
    the parser's message.  The request carries the payload as
    ['application/pdf'] data and the schema of the configuration. *)
Theorem analyzeScript_outcome generateContent JSON_parse
    (fileBase64 : string) (config : GenerationConfig) :
  let request := GeminiService.analyzeRequest fileBase64 config in
  let run := GeminiService.analyzeScript generateContent JSON_parse fileBase64 config in
  (forall scene,
     run = JS.Fulfilled scene <->
     exists text, generateContent request
                  = JS.Fulfilled {| GeminiService.response_text := Some text |} /\
                  text <> "" /\ JSON_parse text = JS.Normal scene) /\
  (forall e, generateContent request = JS.Rejected e -> run = JS.Rejected e) /\
  (forall response, generateContent request = JS.Fulfilled response ->
     JS.truthy (GeminiService.response_text response) = false ->
     run = JS.Rejected {| JS.message := Some "Failed to analyze script" |}) /\
  GeminiService.req_data request = fileBase64 /\
  GeminiService.req_mimeType request = "application/pdf" /\
  GeminiService.req_responseSchema request = GeminiService.responseSchema config.
Proof.
  intros request run. subst request run. unfold GeminiService.analyzeScript.
  repeat split.
  - destruct (generateContent _) as [[[text|]]|e]; simpl; try discriminate.
    destruct (String.eqb_spec text ""); simpl; [discriminate|].
    destruct (JSON_parse text) eqn:Hparse; [|discriminate].
    intros [= <-]. eauto.
  - intros (text & -> & Hne & Hparse). simpl.
    apply String.eqb_neq in Hne. rewrite Hne. simpl. by rewrite Hparse.
  - by intros e ->.
  - intros response -> Hfalsy. by rewrite Hfalsy.
Qed.

Lemma first_image_Some (ps : list GeminiService.Part) (url : string) :
  GeminiService.first_image ps = Some url <->
  exists before part inline after,
    ps = before ++ part :: after /\
    Forall (fun p => GeminiService.inlineData p = None) before /\
    GeminiService.inlineData part = Some inline /\
    url = ("data:image/png;base64," ++ default "undefined" (GeminiService.data inline))%string.
Proof.
  induction ps as [|p ps IH]; simpl.
  - split; [discriminate|]. intros (before & ? & ? & ? & Heq & _). by destruct before.
  - destruct (GeminiService.inlineData p) as [inline|] eqn:Hp.
    + split.
      * intros [= <-]. exists [], p, inline, ps. by repeat split.
      * intros ([|q before] & part & inline' & after & Heq & Hall & Hpart & ->).
        -- injection Heq as <- <-. rewrite Hp in Hpart. by injection Hpart as <-.
        -- injection Heq as <- ->. apply Forall_cons in Hall as [Hq _]. congruence.
    + rewrite IH. split.
      * intros (before & part & inline & after & -> & Hall & Hpart & ->).
        exists (p :: before), part, inline, after. repeat split; [|done].
        by constructor.
      * intros ([|q before] & part & inline & after & Heq & Hall & Hpart & ->).
        -- injection Heq as <- <-. congruence.
        -- injection Heq as <- ->. apply Forall_cons in Hall as [_ Hall].
           exists before, part, inline, after. by repeat split.
Qed.

Lemma first_image_None (ps : list GeminiService.Part) :
  GeminiService.first_image ps = None <->
  Forall (fun p => GeminiService.inlineData p = None) ps.
Proof.
  induction ps as [|p ps IH]; simpl; [by split; [constructor|]|].
  destruct (GeminiService.inlineData p) eqn:Hp.
  - split; [discriminate|]. intros [Hq _]%Forall_cons. congruence.
  - rewrite IH. split; [by constructor|by intros [_ ?]%Forall_cons].
Qed.

(** X19: [generateStoryboard] sends the prompt followed by the fixed
    qualifiers, and when the service answers it looks at the parts of the
    first candidate only: it resolves with the PNG data URL of the first
    part that has inline data, skipping the parts before it, and rejects
    with "Failed to generate storyboard image" when there is no candidate,
    no part, or no part with inline data. *)
Theorem generateStoryboard_outcome generateContent (prompt : string)
    (response : GeminiService.ImageResponse) :
  generateContent
    {| GeminiService.img_model := "gemini-2.5-flash-image";
       GeminiService.img_text :=
         (prompt ++ " --aspect-ratio 16:9 --style cinematic --high-quality")%string |}
  = JS.Fulfilled response ->
  let ps := default [] (cs ← GeminiService.candidates response;
                        candidate ← head cs; GeminiService.parts candidate) in
  (forall url,
     GeminiService.generateStoryboard generateContent prompt = JS.Fulfilled url <->
     exists before part inline after,
       ps = before ++ part :: after /\
       Forall (fun p => GeminiService.inlineData p = None) before /\
       GeminiService.inlineData part = Some inline /\
       url = ("data:image/png;base64,"
              ++ default "undefined" (GeminiService.data inline))%string) /\
  (Forall (fun p => GeminiService.inlineData p = None) ps ->
   GeminiService.generateStoryboard generateContent prompt
   = JS.Rejected {| JS.message := Some "Failed to generate storyboard image" |}).
Proof.
  intros Hresp ps. unfold GeminiService.generateStoryboard. rewrite Hresp.
  fold (GeminiService.first_parts response) in ps. subst ps. split.
  - intros url. rewrite <- first_image_Some.
    destruct (GeminiService.first_image _); split; congruence.
  - intros Hnone%first_image_None. by rewrite Hnone.
Qed.

Lemma generateStoryboard_outcome_witness :
  GeminiService.generateStoryboard (fun _ => JS.Fulfilled sample_image_response) "a corridor"
  = JS.Fulfilled "data:image/png;base64,iVBORw0KGgo=".
Proof.
  destruct (generateStoryboard_outcome (fun _ => JS.Fulfilled sample_image_response)
              "a corridor" sample_image_response eq_refl) as [Hiff _].
  apply Hiff.
  exists [ {| GeminiService.inlineData := None |} ],
         {| GeminiService.inlineData := Some {| GeminiService.data := Some "iVBORw0KGgo=" |} |},
         {| GeminiService.data := Some "iVBORw0KGgo=" |},
         [ {| GeminiService.inlineData := Some {| GeminiService.data := Some "AAAA" |} |} ].
  repeat split. by repeat constructor.
Defined.

(** ** Subtitles: edits and the overlay text *)

Lemma array_set_in_range {A} (a : list (option A)) (i : nat) (v : A) :
  (i < length a)%nat -> JS.array_set a i v = <[i := Some v]> a.
Proof. intros Hi. unfold JS.array_set. by rewrite decide_True. Qed.

Lemma editor_row_inv (idx : nat) (m : Model) :
  editor_row idx m = true ->
  exists scene, sceneInfo m = Some scene /\
                (idx < length (default [] (subtitles scene)))%nat /\
                subtitles_of m = default [] (subtitles scene).
Proof.
  unfold editor_row, subtitles_of. destruct (sceneInfo m) as [scene|]; [|discriminate].
  intros Hidx%bool_decide_eq_true. exists scene.
  split; [reflexivity|]. split; [exact Hidx|reflexivity].
Qed.

(** X20: an edit of a subtitle made on the page (time or text) happens in
    place: the number of subtitles is the same, every other row is the one
    before, no hole appears, and phase and configuration are untouched. *)
Theorem subtitle_edits_in_place parseFloat (e : Event) (idx : nat) (m m' : Model) :
  (exists field value, e = SubtitleTimeInput idx field value) \/
  (exists value, e = SubtitleTextInput idx value) ->
  step parseFloat e m = JS.Normal m' ->
  length (subtitles_of m') = length (subtitles_of m) /\
  (forall j, j <> idx -> subtitles_of m' !! j = subtitles_of m !! j) /\
  (no_holes m -> no_holes m') /\
  state m' = state m /\
  config m' = config m.
Proof.
  intros He. unfold step.
  assert (Hr : rendered e m = ((storyboard_view m || result_view m) && editor_row idx m)).
  { by destruct He as [(? & ? & ->)|(? & ->)]. }
  assert (Hd : disabled e m = false).
  { by destruct He as [(? & ? & ->)|(? & ->)]. }
  rewrite Hr, Hd, andb_true_r.
  destruct (storyboard_view m || result_view m);
    [simpl|intros [= <-]; repeat split; auto].
  destruct (editor_row idx m) eqn:Hrow;
    [simpl|intros [= <-]; repeat split; auto].
  destruct (editor_row_inv _ _ Hrow) as (scene & Hscene & Hidx & Hsubs).
  intros Hrun.
  assert (exists sub, m' = (m |> setSceneInfo
                                 (Some (scene |> with_subtitles
                                          (<[idx := Some sub]> (default [] (subtitles scene)))))))
    as [sub ->].
  { destruct He as [(field & value & ->)|(value & ->)]; simpl in Hrun;
      unfold updateSubtitleTime, updateSubtitleText in Hrun;
      rewrite Hscene in Hrun; simpl in Hrun;
      rewrite array_set_in_range in Hrun by exact Hidx;
      injection Hrun as <-; eauto. }
  unfold no_holes. rewrite Hsubs. unfold subtitles_of. simpl.
  set (subs := default [] (subtitles scene)) in *.
  repeat split.
  - apply length_insert.
  - intros j Hj. by apply list_lookup_insert_ne.
  - intros Hall. apply Forall_insert; [exact Hall|by eexists].
Qed.

Lemma subtitle_edits_in_place_witness :
  length (subtitles_of
            (storyboarded |> setSceneInfo
               (Some (sample_scene
                      |> with_storyboardImage "data:image/png;base64,iVBORw0KGgo="
                      |> with_subtitles
                           [Some {| startTime := Some (JS.Finite 0);
                                    endTime := Some (JS.Finite (Qmake 35 10));
                                    text := Some "We go now." |}])))) = 1%nat.
Proof.
  exact (proj1 (subtitle_edits_in_place JS.parseFloat
                  (SubtitleTimeInput 0 EndTime "3.5") 0 storyboarded _
                  (or_introl (ex_intro _ EndTime (ex_intro _ "3.5" eq_refl)))
                  eq_refl)).
Defined.

Lemma find_active_no_holes (t : JS.number) (ss : list Subtitle) :
  find_active t (Some <$> ss)
  = JS.Normal (snd <$> list_find (fun s => active t s = true) ss).
Proof.
  induction ss as [|s ss IH]; [reflexivity|].
  cbn [fmap list_fmap find_active JS.deref mbind JS.completion_bind list_find].
  destruct (active t s) eqn:Hs.
  - by rewrite decide_True.
  - rewrite decide_False by congruence. rewrite IH.
    by destruct (list_find _ ss) as [[i x]|].
Qed.

(** X21: the subtitle shown at a playback time is the first one in array
    order whose interval holds the time: every subtitle before it is
    inactive, whatever comes after it, so of two overlapping subtitles the
    earlier in the array wins; none is shown exactly when none is active.
    On an array without hole the lookup does not throw. *)
Theorem currentSubtitle_first_match (m : Model) (scene : MovieScene) (ss : list Subtitle) :
  sceneInfo m = Some scene ->
  subtitles scene = Some (Some <$> ss) ->
  (exists shown, currentSubtitle m = JS.Normal shown) /\
  (forall s,
     currentSubtitle m = JS.Normal (Some s) <->
     exists i, ss !! i = Some s /\ active (currentTime m) s = true /\
               forall j s', ss !! j = Some s' -> (j < i)%nat ->
                            active (currentTime m) s' = false) /\
  (currentSubtitle m = JS.Normal None <->
   forall s, s ∈ ss -> active (currentTime m) s = false).
Proof.
  intros Hscene Hsubs. unfold currentSubtitle. rewrite Hscene. simpl. rewrite Hsubs.
  rewrite find_active_no_holes. split; [by eexists|]. split.
  - intros s. split.
    + intros [= Hfind]. destruct (list_find _ ss) as [[i x]|] eqn:Hlf; [|discriminate].
      injection Hfind as ->. apply list_find_Some in Hlf as (Hi & Hact & Hbefore).
      exists i. repeat split; [done..|]. intros j s' Hj Hlt.
      apply not_true_is_false. exact (Hbefore j s' Hj Hlt).
    + intros (i & Hi & Hact & Hbefore).
      assert (list_find (fun s => active (currentTime m) s = true) ss = Some (i, s)) as ->.
      { apply list_find_Some. repeat split; [done..|]. intros j s' Hj Hlt.
        rewrite (Hbefore j s' Hj Hlt). discriminate. }
      reflexivity.
  - split.
    + intros [= Hfind]. destruct (list_find _ ss) as [[i x]|] eqn:Hlf; [discriminate|].
      apply list_find_None in Hlf. intros s Hs.
      apply not_true_is_false. exact (proj1 (Forall_forall _ _) Hlf s Hs).
    + intros Hnone.
      assert (list_find (fun s => active (currentTime m) s = true) ss = None) as ->; [|done].
      apply list_find_None, Forall_forall. intros s Hs. rewrite (Hnone s Hs). discriminate.
Qed.

Lemma currentSubtitle_first_match_witness :
  exists shown, currentSubtitle storyboarded = JS.Normal shown.
Proof.
  exact (proj1 (currentSubtitle_first_match storyboarded _
                  [ {| startTime := Some (JS.Finite 0); endTime := Some (JS.Finite 2);
                       text := Some "We go now." |} ]
                  eq_refl eq_refl)).
Defined.

(** X22: a subtitle with finite times is active exactly on the closed
    interval from its start to its end, both ends included; a subtitle that
    lacks a time, and any subtitle at a time that is NaN, is not active. *)
Theorem active_closed_interval (t : JS.number) (s : Subtitle) :
  (forall a b c, startTime s = Some (JS.Finite a) -> endTime s = Some (JS.Finite b) ->
     t = JS.Finite c -> (active t s = true <-> (a <= c)%Q /\ (c <= b)%Q)) /\
  (startTime s = None \/ endTime s = None \/ t = JS.NaN -> active t s = false).
Proof.
  unfold active. split.
  - intros a b c -> -> ->. simpl. rewrite andb_true_iff, !Qle_bool_iff. tauto.
  - intros [-> | [-> | ->]]; simpl.
    + by destruct t as [|[]|].
    + destruct (JS.leb _ t); [|done]. by destruct t as [|[]|].
    + destruct (JS.to_number (startTime s)) as [|[]|]; reflexivity.
Qed.




(** ** The phases *)

(** X24: acting on a control either leaves the phase or moves it along one of
    seven edges: CONFIGURE to UPLOAD or ANALYZING, STORYBOARD to CONFIGURE
    or GENERATING, RESULT to STORYBOARD, GENERATING or UPLOAD.  No control
    leaves KEY_SELECTION, UPLOAD, ANALYZING or GENERATING by itself: those
    phases end only when a dialog, a reader or a service call comes back. *)
Theorem user_transitions parseFloat (e : Event) (m m' : Model) :
  user_event e = true ->
  step parseFloat e m = JS.Normal m' ->
  state m' = state m \/ (state m, state m') ∈ user_edges.
Proof.
  intros Huser. unfold step, mret, JS.completion_ret.
  destruct (rendered e m && negb (disabled e m)) eqn:Hon; simpl;
    [|intros [= <-]; by left].
  apply andb_true_iff in Hon as [Hr _].
  destruct e; try discriminate Huser; simpl in *;
    unfold storyboard_view, result_view in Hr;
    repeat match type of Hr with
           | _ && _ = true => apply andb_true_iff in Hr as [Hr ?]
           | _ || _ = true => apply orb_true_iff in Hr as [Hr|Hr]
           end;
    try apply bool_decide_eq_true in Hr;
    unfold_handlers; unfold mret, JS.completion_ret;
    repeat (match goal with |- context [JS.deref ?o] => destruct o eqn:? end; simpl);
    repeat case_match; simpl in *; intros [= <-]; simpl; rewrite ?Hr;
    first [by left | right; unfold user_edges; by apply (bool_decide_unpack _)].
Qed.

Lemma user_transitions_witness :
  state (storyboarded |> setState CONFIGURE) = state storyboarded \/
  (state storyboarded, state (storyboarded |> setState CONFIGURE)) ∈ user_edges.
Proof.
  exact (user_transitions JS.parseFloat AdjustSettings storyboarded
           (storyboarded |> setState CONFIGURE) eq_refl eq_refl).
Defined.

(** X25: after a credential failure the store still holds the payload and the
    configuration, and choosing a key again does not clear the error: the
    phase is UPLOAD and the session-expired message is shown there. *)
Theorem credential_recovery_keeps_error analyzeScript generateStoryboard
    (m : Model) (apiErr : JS.Error) (msg : string) (opened : unit) :
  JS.truthy (pdfBase64 m) = true ->
  analyzeScript (default "" (pdfBase64 m)) (config m) = JS.Rejected apiErr ->
  JS.message apiErr = Some msg ->
  JS.includes "Requested entity was not found" msg = true ->
  let m' := startAnalysis analyzeScript generateStoryboard m
            |> handleOpenKey (JS.Fulfilled opened) in
  state m' = UPLOAD /\
  error m' = Some "Your API key session expired. Please re-select your project." /\
  error_shown m' = true /\
  pdfBase64 m' = pdfBase64 m /\
  config m' = config m.
Proof.
  intros Hpdf Hrej Hmsg Hincl m'. subst m'.
  unfold startAnalysis, startAnalysis_sync, startAnalysis_catch, handleOpenKey.
  rewrite Hpdf; simpl. rewrite Hrej, Hmsg; simpl. rewrite Hincl. by repeat split.
Qed.

Lemma credential_recovery_keeps_error_witness :
  state (startAnalysis (fun _ _ => JS.Rejected expired) (fun _ => JS.Fulfilled "") configured
         |> handleOpenKey (JS.Fulfilled tt)) = UPLOAD.
Proof.
  exact (proj1 (credential_recovery_keeps_error
                  (fun _ _ => JS.Rejected expired) (fun _ => JS.Fulfilled "")
                  configured expired _ tt eq_refl eq_refl eq_refl eq_refl)).
Defined.
